(** * Token and credential subsystem of the calculation backend

    A shallow embedding of [app/auth/jwt.py] and [app/auth/security.py]:
    token issuance ([create_token], [create_access_token]), verification
    ([decode_token], [decode_access_token]), identity resolution
    ([get_current_user]) and password verification ([verify_password]).

    Python exceptions are results of an error-and-state monad; the wall
    clock, the random source and the revocation store are fields of the
    state the monad threads. *)

From Stdlib Require Import ZArith String Ascii List Lia.
From stdpp Require Import gmap strings list fin_maps pretty.

Local Open Scope string_scope.
Local Open Scope Z_scope.

(** ** Values *)

(** JSON scalars, as they travel inside a token payload: null, booleans,
    integers and strings.  Floating-point numbers, arrays and objects
    are left out of the model. *)
Inductive json :=
| JNull
| JBool (b : bool)
| JInt (n : Z)
| JStr (s : string).

#[global] Instance json_eq_dec : EqDecision json.
Proof. solve_decision. Defined.

(** Python-side claim values: what a caller may put into the dict handed
    to [jwt.encode].  A [datetime] is a number of microseconds since the
    epoch, UTC. *)
Inductive pyval :=
| PJson (j : json)
| PDatetime (us : Z).

(** [uuid.UUID]: a 128-bit integer. *)
Record UUID := mkUUID { uuid_int : N }.

(** [app.models.user.User], reduced to the attributes this module reads. *)
Record User := mkUser {
  id : string;
  username : string;
  is_active : bool
}.

(** Modelled from the spec: [app.schemas.token.TokenType] is not part of
    the sources at hand; the spec describes it as an enumeration
    {ACCESS, REFRESH} whose string value is the payload's [type] claim. *)
Inductive TokenType := ACCESS | REFRESH.

Definition value (t : TokenType) : string :=
  match t with
  | ACCESS => "access"
  | REFRESH => "refresh"
  end.

#[global] Instance TokenType_eq_dec : EqDecision TokenType.
Proof. solve_decision. Defined.

(** [app.core.config] settings, the fields the module reads. *)
Record Settings := mkSettings {
  SECRET_KEY : string;
  JWT_SECRET_KEY : string;
  JWT_REFRESH_SECRET_KEY : string;
  ALGORITHM : string;
  ACCESS_TOKEN_EXPIRE_MINUTES : Z;
  REFRESH_TOKEN_EXPIRE_DAYS : Z
}.

(** ** Exceptions *)

Definition headers_t := list (string * string).

Inductive exn :=
| HTTPException (status_code : Z) (detail : string) (headers : headers_t)
  (* the library's errors; the next two are subclasses of [JWTError] *)
| ExpiredSignatureError (msg : string)
| JWTClaimsError (msg : string)
| JWTError (msg : string)
| JWSError (msg : string)
| KeyError (key : string)
| TypeError (msg : string)
| OverflowError (msg : string)
| UnknownHashError (msg : string)
| ValueError (msg : string)
| UnicodeEncodeError (msg : string).

Definition bearer : headers_t := [("WWW-Authenticate", "Bearer")].

Definition HTTP_400_BAD_REQUEST : Z := 400.
Definition HTTP_401_UNAUTHORIZED : Z := 401.
Definition HTTP_404_NOT_FOUND : Z := 404.
Definition HTTP_500_INTERNAL_SERVER_ERROR : Z := 500.

(** ** The state and the monad *)

(** What the module reads from and writes to outside itself.
    [clock n] is the n-th reading of the UTC wall clock (microseconds),
    [entropy n] the n-th result of [secrets.token_hex(16)];
    [blacklist] holds the token identifiers present in the revocation
    store and [store_lookups] records every query made to it, latest
    first. *)
Record World := mkWorld {
  clock : nat -> Z;
  clock_reads : nat;
  entropy : nat -> string;
  entropy_draws : nat;
  blacklist : gset string;
  store_lookups : list json
}.

Inductive outcome (A : Type) :=
| Return (a : A)
| Raise (e : exn).
Arguments Return {A} a.
Arguments Raise {A} e.

Definition M (A : Type) : Type := World -> outcome A * World.

Definition ret {A} (a : A) : M A := fun w => (Return a, w).
Definition raise {A} (e : exn) : M A := fun w => (Raise e, w).
Definition bind {A B} (m : M A) (k : A -> M B) : M B :=
  fun w => match m w with
           | (Return a, w') => k a w'
           | (Raise e, w') => (Raise e, w')
           end.

(** [try: body except ...: handler]. *)
Definition try_except {A} (body : M A) (handler : exn -> M A) : M A :=
  fun w => match body w with
           | (Return a, w') => (Return a, w')
           | (Raise e, w') => handler e w'
           end.

#[global] Instance M_ret : MRet M := @ret.
#[global] Instance M_bind : MBind M := fun A B k m => bind m k.

(** ** Time *)

Definition datetime_min : Z := -62135596800000000.
Definition datetime_max : Z := 253402300799999999.
Definition timedelta_min : Z := -86399999913600000000.
Definition timedelta_max : Z := 86399999999999999999.

(** The state after one more reading of the clock. *)
Definition tick (w : World) : World :=
  mkWorld (clock w) (S (clock_reads w)) (entropy w)
          (entropy_draws w) (blacklist w) (store_lookups w).

(** The reading the next call to the clock returns. *)
Definition now_of (w : World) : Z := clock w (clock_reads w).

(** [datetime.now(timezone.utc)]. *)
Definition datetime_now : M Z := fun w => (Return (now_of w), tick w).

Definition timedelta (us : Z) : M Z :=
  if (timedelta_min <=? us) && (us <=? timedelta_max)
  then ret us
  else raise (OverflowError "timedelta out of range").

Definition timedelta_minutes (m : Z) : M Z := timedelta (m * 60000000).
Definition timedelta_days (d : Z) : M Z := timedelta (d * 86400000000).

(** [datetime + timedelta]. *)
Definition datetime_add (t d : Z) : M Z :=
  if (datetime_min <=? t + d) && (t + d <=? datetime_max)
  then ret (t + d)
  else raise (OverflowError "date value out of range").

(** [calendar.timegm(dt.utctimetuple())]: whole seconds, rounded down. *)
Definition timegm (us : Z) : Z := us / 1000000.

(** The state after one more draw from the random source. *)
Definition drawn (w : World) : World :=
  mkWorld (clock w) (clock_reads w) (entropy w)
          (S (entropy_draws w)) (blacklist w) (store_lookups w).

(** [secrets.token_hex(16)]. *)
Definition token_hex : M string :=
  fun w => (Return (entropy w (entropy_draws w)), drawn w).

(** The state after the revocation store was asked about [jti]. *)
Definition queried (jti : json) (w : World) : World :=
  mkWorld (clock w) (clock_reads w) (entropy w)
          (entropy_draws w) (blacklist w) (jti :: store_lookups w).

Definition in_store (jti : json) (w : World) : bool :=
  match jti with
  | JStr s => bool_decide (s ∈ blacklist w)
  | _ => false
  end.

(** Modelled from the spec: [app.auth.redis.is_blacklisted] is not part
    of the sources at hand; the spec gives it as
    [contains(token_id) -> bool], membership in the revocation store.
    Identifiers that are not strings cannot reach it, the token library
    rejects them first. *)
Definition is_blacklisted (jti : json) : M bool :=
  fun w => (Return (in_store jti w), queried jti w).

(** ** Stringification of identifiers *)

Definition hex_digit (n : N) : ascii :=
  match n with
  | 0%N => "0" | 1%N => "1" | 2%N => "2" | 3%N => "3"
  | 4%N => "4" | 5%N => "5" | 6%N => "6" | 7%N => "7"
  | 8%N => "8" | 9%N => "9" | 10%N => "a" | 11%N => "b"
  | 12%N => "c" | 13%N => "d" | 14%N => "e" | _ => "f"
  end%char.

(** The [len] hexadecimal digits of [n] starting at digit [hi - 1],
    most significant first. *)
Fixpoint hex_field (len : nat) (hi : N) (n : N) : string :=
  match len with
  | O => EmptyString
  | S len' =>
      String (hex_digit (N.land (N.shiftr n (4 * (hi - 1))) 15))
             (hex_field len' (hi - 1) n)
  end.

(** [str(uuid)]: 8-4-4-4-12 lower-case hexadecimal digits. *)
Definition uuid_str (u : UUID) : string :=
  let n := (uuid_int u mod 2 ^ 128)%N in
  hex_field 8 32 n +:+ "-" +:+ hex_field 4 24 n +:+ "-" +:+
  hex_field 4 20 n +:+ "-" +:+ hex_field 4 16 n +:+ "-" +:+
  hex_field 12 12 n.


(** ** The token library (python-jose), as this module uses it *)

(** A token string, by what the library's loader makes of it: the
    compact form, a header naming the algorithm, the payload and the
    signature; a string the loader refuses with its own [JWSError] (not
    enough segments, bad padding, a header that is no JSON object); or a
    string on which the loader raises [e], another exception, before it
    gets that far (a lone surrogate cannot be encoded:
    [UnicodeEncodeError]). *)
Inductive token :=
| Malformed (s : string)
| Compact (alg : string) (payload : gmap string json) (signature : string)
| Unloadable (e : exn).

Definition time_claims : list string := ["exp"; "iat"; "nbf"].

(** The algorithms the library signs with. *)
Definition SUPPORTED : list string :=
  ["HS256"; "HS384"; "HS512"; "RS256"; "RS384"; "RS512";
   "ES256"; "ES384"; "ES512"].

(** [jwt.encode] turns the [datetime]s of the three time claims into whole
    seconds; any other [datetime] makes [json.dumps] fail. *)
Definition claim_to_json (k : string) (v : pyval) : option json :=
  match v with
  | PJson j => Some j
  | PDatetime us =>
      if bool_decide (k ∈ time_claims) then Some (JInt (timegm us)) else None
  end.

Definition serialisable (claims : gmap string pyval) : Prop :=
  map_Forall (fun k v => is_Some (claim_to_json k v)) claims.

#[global] Instance serialisable_dec claims : Decision (serialisable claims).
Proof. unfold serialisable. apply _. Defined.

(** The number of seconds a time claim holds when it is a JSON integer,
    a boolean being the integer 0 or 1 as in Python.  It serves to state
    that a token has expired; what the library makes of a claim of any
    kind is [builtin_int] below. *)
Definition claim_seconds (j : json) : option Z :=
  match j with
  | JInt n => Some n
  | JBool b => Some (if b then 1 else 0)
  | _ => None
  end.

Definition is_str (j : json) : bool :=
  match j with JStr _ => true | _ => false end.

Definition subscript (d : gmap string json) (k : string) : M json :=
  match d !! k with
  | Some v => ret v
  | None => raise (KeyError k)
  end.

Section Codec.

(** The signing primitive of the library: [jws_sign alg key payload] is
    the signature over header and payload, or nothing when the algorithm
    cannot use the key. *)
Variable jws_sign : string -> string -> gmap string json -> option string.

(** [str(e)] on an exception object. *)
Variable exn_str : exn -> string.

(** [int(s)] on a string, nothing when it raises [ValueError]. *)
Variable int_of_str : string -> option Z.

Variable settings : Settings.

(** [int(x)] on a claim: a number or boolean as it is, a string parsed,
    [TypeError] on null. *)
Definition builtin_int (x : json) : outcome Z :=
  match x with
  | JInt n => Return n
  | JBool b => Return (if b then 1 else 0)
  | JStr s =>
      match int_of_str s with
      | Some n => Return n
      | None => Raise (ValueError "invalid literal for int() with base 10")
      end
  | JNull =>
      Raise (TypeError "int() argument must be a string, a bytes-like object or a real number, not 'NoneType'")
  end.

(** [jwt.encode(claims, key, algorithm=alg)]: the algorithm is looked up
    first, then the payload is serialised, then signed. *)
Definition jwt_encode (claims : gmap string pyval) (key alg : string)
  : M token :=
  if bool_decide (alg ∈ SUPPORTED) then
    if decide (serialisable claims) then
      let payload := map_imap claim_to_json claims in
      match jws_sign alg key payload with
      | Some sig => ret (Compact alg payload sig)
      | None => raise (JWSError "The key cannot be used with the algorithm.")
      end
    else raise (TypeError "Object of type datetime is not JSON serializable")
  else raise (JWSError "Algorithm not supported.").

Definition utcnow_seconds : M Z := now ← datetime_now; ret (timegm now).

Definition validate_iat (claims : gmap string json) : M unit :=
  match claims !! "iat" with
  | None => ret tt
  | Some v =>
      match builtin_int v with
      | Return _ => ret tt
      | Raise (ValueError _) =>
          raise (JWTClaimsError "Issued At claim (iat) must be an integer.")
      | Raise e => raise e
      end
  end.

Definition validate_nbf (claims : gmap string json) : M unit :=
  match claims !! "nbf" with
  | None => ret tt
  | Some v =>
      match builtin_int v with
      | Return nbf =>
          now ← utcnow_seconds;
          if now <? nbf
          then raise (JWTClaimsError "The token is not yet valid (nbf)")
          else ret tt
      | Raise (ValueError _) =>
          raise (JWTClaimsError "Not Before claim (nbf) must be an integer.")
      | Raise e => raise e
      end
  end.

Definition validate_exp (claims : gmap string json) : M unit :=
  match claims !! "exp" with
  | None => ret tt
  | Some v =>
      match builtin_int v with
      | Return exp =>
          now ← utcnow_seconds;
          if exp <? now
          then raise (ExpiredSignatureError "Signature has expired.")
          else ret tt
      | Raise (ValueError _) =>
          raise (JWTClaimsError "Expiration Time claim (exp) must be an integer.")
      | Raise e => raise e
      end
  end.

(** No audience and no access token are passed by this module, so a
    token carrying [aud] or [at_hash] is refused. *)
Definition validate_aud (claims : gmap string json) : M unit :=
  match claims !! "aud" with
  | None => ret tt
  | Some _ => raise (JWTClaimsError "Invalid audience")
  end.

Definition validate_sub (claims : gmap string json) : M unit :=
  match claims !! "sub" with
  | None => ret tt
  | Some v => if is_str v then ret tt
              else raise (JWTClaimsError "Subject must be a string.")
  end.

Definition validate_jti (claims : gmap string json) : M unit :=
  match claims !! "jti" with
  | None => ret tt
  | Some v => if is_str v then ret tt
              else raise (JWTClaimsError "JWT ID must be a string.")
  end.

Definition validate_at_hash (claims : gmap string json) : M unit :=
  match claims !! "at_hash" with
  | None => ret tt
  | Some _ => raise (JWTClaimsError "No access_token provided to compare against at_hash claim.")
  end.

Definition validate_claims (claims : gmap string json) (verify_exp : bool)
  : M unit :=
  _ ← validate_iat claims;
  _ ← validate_nbf claims;
  _ ← (if verify_exp then validate_exp claims else ret tt);
  _ ← validate_aud claims;
  _ ← validate_sub claims;
  _ ← validate_jti claims;
  validate_at_hash claims.

(** [jwt.decode(token, key, algorithms=..., options={"verify_exp": ...})]:
    the signature first, then the claims. *)
Definition jwt_decode (tok : token) (key : string) (algorithms : list string)
    (verify_exp : bool) : M (gmap string json) :=
  match tok with
  | Malformed _ => raise (JWTError "Not enough segments")
  | Unloadable e => raise e
  | Compact alg payload sig =>
      if bool_decide (alg ∈ algorithms) then
        if bool_decide (jws_sign alg key payload = Some sig) then
          _ ← validate_claims payload verify_exp;
          ret payload
        else raise (JWTError "Signature verification failed.")
      else raise (JWTError "The specified alg value is not allowed")
  end.

(** ** app/auth/jwt.py *)

Definition truthy_int (n : Z) : bool := negb (n =? 0).

Definition create_access_token (data : gmap string pyval)
    (expires_minutes : option Z) : M token :=
  let to_encode := data in
  expire ← (match expires_minutes with
            | Some m =>
                if truthy_int m then
                  now ← datetime_now; d ← timedelta_minutes m;
                  datetime_add now d
                else
                  now ← datetime_now;
                  d ← timedelta_minutes (ACCESS_TOKEN_EXPIRE_MINUTES settings);
                  datetime_add now d
            | None =>
                now ← datetime_now;
                d ← timedelta_minutes (ACCESS_TOKEN_EXPIRE_MINUTES settings);
                datetime_add now d
            end);
  iat ← datetime_now;
  let to_encode :=
    <["iat" := PDatetime iat]> (<["exp" := PDatetime expire]> to_encode) in
  jwt_encode to_encode (SECRET_KEY settings) (ALGORITHM settings).

Definition decode_access_token (tok : token) : M (gmap string json) :=
  try_except
    (jwt_decode tok (SECRET_KEY settings) [ALGORITHM settings] true)
    (fun e =>
       match e with
       | ExpiredSignatureError _ =>
           raise (HTTPException HTTP_401_UNAUTHORIZED "Token has expired" bearer)
       | JWTClaimsError _ | JWTError _ =>
           raise (HTTPException HTTP_401_UNAUTHORIZED
                    ("Could not validate token: " +:+ exn_str e) bearer)
       | _ => raise e
       end).

Definition default_expire (token_type : TokenType) : M Z :=
  match token_type with
  | ACCESS =>
      now ← datetime_now;
      d ← timedelta_minutes (ACCESS_TOKEN_EXPIRE_MINUTES settings);
      datetime_add now d
  | REFRESH =>
      now ← datetime_now;
      d ← timedelta_days (REFRESH_TOKEN_EXPIRE_DAYS settings);
      datetime_add now d
  end.

Definition secret_for (token_type : TokenType) : string :=
  match token_type with
  | ACCESS => JWT_SECRET_KEY settings
  | REFRESH => JWT_REFRESH_SECRET_KEY settings
  end.

Definition create_token (user_id : string + UUID) (token_type : TokenType)
    (expires_delta : option Z) : M token :=
  expire ← (match expires_delta with
            | Some d =>
                if truthy_int d then now ← datetime_now; datetime_add now d
                else default_expire token_type
            | None => default_expire token_type
            end);
  let user_id := match user_id with
                 | inl s => s
                 | inr u => uuid_str u
                 end in
  iat ← datetime_now;
  jti ← token_hex;
  let to_encode : gmap string pyval :=
    <["jti" := PJson (JStr jti)]>
      (<["iat" := PDatetime iat]>
         (<["exp" := PDatetime expire]>
            (<["type" := PJson (JStr (value token_type))]>
               (<["sub" := PJson (JStr user_id)]> ∅)))) in
  let secret := secret_for token_type in
  try_except
    (jwt_encode to_encode secret (ALGORITHM settings))
    (fun e => raise (HTTPException HTTP_500_INTERNAL_SERVER_ERROR
                       ("Could not create token: " +:+ exn_str e) [])).

Definition decode_token (tok : token) (token_type : TokenType)
    (verify_exp : bool) : M (gmap string json) :=
  try_except
    (let secret := secret_for token_type in
     payload ← jwt_decode tok secret [ALGORITHM settings] verify_exp;
     if bool_decide (payload !! "type" ≠ Some (JStr (value token_type))) then
       raise (HTTPException HTTP_401_UNAUTHORIZED "Invalid token type" bearer)
     else
       jti ← subscript payload "jti";
       revoked ← is_blacklisted jti;
       if revoked : bool then
         raise (HTTPException HTTP_401_UNAUTHORIZED "Token has been revoked" bearer)
       else ret payload)
    (fun e =>
       match e with
       | ExpiredSignatureError _ =>
           raise (HTTPException HTTP_401_UNAUTHORIZED "Token has expired" bearer)
       | JWTClaimsError _ | JWTError _ =>
           raise (HTTPException HTTP_401_UNAUTHORIZED
                    "Could not validate credentials" bearer)
       | _ => raise e
       end).

(** [db.query(User).filter(User.id == user_id).first()]. *)
Definition query_first (db : list User) (user_id : json) : option User :=
  List.find (fun u => bool_decide (JStr (id u) = user_id)) db.

Definition get_current_user (tok : token) (db : list User) : M User :=
  try_except
    (payload ← decode_token tok ACCESS true;
     user_id ← subscript payload "sub";
     match query_first db user_id with
     | None => raise (HTTPException HTTP_404_NOT_FOUND "User not found" [])
     | Some user =>
         if negb (is_active user) then
           raise (HTTPException HTTP_400_BAD_REQUEST "Inactive user" [])
         else ret user
     end)
    (fun e => raise (HTTPException HTTP_401_UNAUTHORIZED (exn_str e) bearer)).

End Codec.

(** ** app/auth/security.py *)

(** The identifiers by which passlib's bcrypt handler recognises a hash. *)
Definition bcrypt_idents : list string := ["$2$"; "$2a$"; "$2x$"; "$2y$"; "$2b$"].

Definition bcrypt_identify (hashed : string) : bool :=
  existsb (fun ident => String.prefix ident hashed) bcrypt_idents.

Section Hasher.

(** The bcrypt handler's own [verify]: it parses the hash, raising
    [ValueError] when that fails, derives the digest of the plaintext
    and compares. *)
Variable bcrypt_verify : string -> string -> outcome bool.

(** [CryptContext(schemes=["bcrypt"]).verify]: the context first looks
    for the scheme that recognises the hash. *)
Definition pwd_context_verify (plain hashed : string) : outcome bool :=
  if bcrypt_identify hashed then bcrypt_verify plain hashed
  else Raise (UnknownHashError "hash could not be identified").

Definition verify_password (plain hashed : string) : outcome bool :=
  pwd_context_verify plain hashed.

End Hasher.

(** ** Reading a token *)

Definition claim_of (tok : token) (k : string) : option json :=
  match tok with
  | Compact _ payload _ => payload !! k
  | Malformed _ | Unloadable _ => None
  end.

(** The token's [exp] lies before the second the clock of [w] shows. *)
Definition expired_at (tok : token) (w : World) : bool :=
  match claim_of tok "exp" ≫= claim_seconds with
  | Some exp => exp <? timegm (now_of w)
  | None => false
  end.

(** The token's [jti] is in the revocation store of [w]. *)
Definition revoked_in (tok : token) (w : World) : bool :=
  match claim_of tok "jti" with
  | Some jti => in_store jti w
  | None => false
  end.

Definition signature_valid
    (jws_sign : string -> string -> gmap string json -> option string)
    (tok : token) (key : string) : bool :=
  match tok with
  | Compact alg payload sig => bool_decide (jws_sign alg key payload = Some sig)
  | Malformed _ | Unloadable _ => false
  end.

Definition user_id_str (user_id : string + UUID) : string :=
  match user_id with
  | inl s => s
  | inr u => uuid_str u
  end.

(** The time-to-live [create_token] adds to its first clock reading. *)
Definition default_ttl (settings : Settings) (token_type : TokenType) : Z :=
  match token_type with
  | ACCESS => ACCESS_TOKEN_EXPIRE_MINUTES settings * 60000000
  | REFRESH => REFRESH_TOKEN_EXPIRE_DAYS settings * 86400000000
  end.

Definition effective_ttl (settings : Settings) (token_type : TokenType)
    (expires_delta : option Z) : Z :=
  match expires_delta with
  | Some d => if truthy_int d then d else default_ttl settings token_type
  | None => default_ttl settings token_type
  end.

(** The payload [create_token] signs. *)
Definition issued_payload (sub : string) (token_type : TokenType)
    (expire iat : Z) (jti : string) : gmap string json :=
  <["jti" := JStr jti]>
    (<["iat" := JInt (timegm iat)]>
       (<["exp" := JInt (timegm expire)]>
          (<["type" := JStr (value token_type)]>
             (<["sub" := JStr sub]> ∅)))).

(** The rejection every verification failure of [decode_token] is turned
    into. *)
Definition http_401 (detail : string) : exn :=
  HTTPException HTTP_401_UNAUTHORIZED detail bearer.

(** ** A concrete instance, to run the model *)

Module Sample.

Definition render (j : json) : string :=
  match j with
  | JNull => "null"
  | JBool true => "true"
  | JBool false => "false"
  | JInt n => pretty n
  | JStr s => s
  end.

(** A keyed digest in clear: the key followed by the payload's entries. *)
Definition digest (payload : gmap string json) : string :=
  foldr (fun kv acc => kv.1 +:+ "=" +:+ render kv.2 +:+ ";" +:+ acc) ""
        (map_to_list payload).

Definition sign (alg key : string) (payload : gmap string json)
  : option string :=
  if bool_decide (alg = "HS256") then Some (key +:+ "|" +:+ digest payload)
  else None.

(** [str(e)], with Starlette's rendering of an [HTTPException]. *)
Definition str (e : exn) : string :=
  match e with
  | HTTPException code detail _ => pretty code +:+ ": " +:+ detail
  | KeyError k => "'" +:+ k +:+ "'"
  | ExpiredSignatureError m | JWTClaimsError m | JWTError m | JWSError m
  | TypeError m | OverflowError m | UnknownHashError m | ValueError m
  | UnicodeEncodeError m => m
  end.

(** [int(s)] on strings of ASCII digits, with an optional minus sign. *)
Fixpoint digits_value (acc : Z) (s : string) : option Z :=
  match s with
  | EmptyString => Some acc
  | String c s' =>
      let n := Z.of_N (N_of_ascii c) in
      if (48 <=? n) && (n <=? 57) then digits_value (10 * acc + (n - 48)) s'
      else None
  end.

Definition int_of_str (s : string) : option Z :=
  match s with
  | EmptyString => None
  | String "-" EmptyString => None
  | String "-" s' => Z.opp <$> digits_value 0 s'
  | _ => digits_value 0 s
  end.

(** Independent secrets, thirty minutes and seven days. *)
Definition settings : Settings :=
  mkSettings "simple-key" "access-key" "refresh-key" "HS256" 30 7.

(** One secret for everything. *)
Definition shared_settings : Settings :=
  mkSettings "one-key" "one-key" "one-key" "HS256" 30 7.

(** A clock that starts at 2023-11-14 22:13:20 UTC and advances by a
    millisecond per reading. *)
Definition start : Z := 1700000000000000.

(** The random source: 128-bit numbers in hexadecimal, one after the
    other from a seed. *)
Definition hex_from (seed : N) (n : nat) : string :=
  hex_field 32 32 (seed + N.of_nat n).

Definition world : World :=
  mkWorld (fun n => start + 1000 * Z.of_nat n) 0
          (hex_from 0x5f2a9c0e77d14b3a8f6e2d1c0b9a8877) 0 ∅ [].

(** A later state: the clock [us] microseconds further on, the given
    revocation store. *)
Definition later (us : Z) (store : gset string) : World :=
  mkWorld (fun n => start + us + 1000 * Z.of_nat n) 0
          (hex_from 0x77e01b5d3c2a19088f7e6d5c4b3a2918) 0 store [].

Definition issued_or_malformed (r : outcome token * World) : token :=
  match r.1 with
  | Return tok => tok
  | Raise _ => Malformed ""
  end.

(** An access token for alice, issued at [start] with the default
    time-to-live; its identifier is the first draw. *)
Definition access_issue : outcome token * World :=
  create_token sign str settings (inl "alice-id") ACCESS None world.
Definition access_token : token := issued_or_malformed access_issue.

Definition minute : Z := 60000000.
Definition hour : Z := 60 * minute.

Definition payload_of (tok : token) : gmap string json :=
  match tok with
  | Compact _ payload _ => payload
  | Malformed _ | Unloadable _ => ∅
  end.

(** Verification one minute after [start], and two hours after it; the
    store empty, or holding the identifier of [access_token]. *)
Definition first_jti : string := entropy world 0.
Definition soon : World := later minute ∅.
Definition soon_revoked : World := later minute {[first_jti]}.
Definition late : World := later (2 * hour) ∅.
Definition late_revoked : World := later (2 * hour) {[first_jti]}.

(** The same request where one secret serves both token types. *)
Definition shared_issue : outcome token * World :=
  create_token sign str shared_settings (inl "alice-id") ACCESS None world.
Definition shared_token : token := issued_or_malformed shared_issue.

(** Requests with a time-to-live of zero, of a fifth of a second and of
    minus five seconds. *)
Definition zero_issue : outcome token * World :=
  create_token sign str settings (inl "alice-id") ACCESS (Some 0) world.
Definition zero_token : token := issued_or_malformed zero_issue.
Definition short_issue : outcome token * World :=
  create_token sign str settings (inl "alice-id") ACCESS (Some 200000) world.
Definition short_token : token := issued_or_malformed short_issue.
Definition negative_issue : outcome token * World :=
  create_token sign str settings (inl "alice-id") ACCESS (Some (-5000000)) world.
Definition negative_token : token := issued_or_malformed negative_issue.

(** The simple helper, asked for zero minutes. *)
Definition helper_zero_issue : outcome token * World :=
  create_access_token sign settings {["sub" := PJson (JStr "alice-id")]}
                      (Some 0) world.
Definition helper_zero_token : token := issued_or_malformed helper_zero_issue.

(** The simple helper, given a [type] claim, under the shared secret. *)
Definition helper_issue : outcome token * World :=
  create_access_token sign shared_settings
    (<["type" := PJson (JStr "access")]> {["sub" := PJson (JStr "alice-id")]})
    None world.
Definition helper_token : token := issued_or_malformed helper_issue.

(** Tokens for a deactivated account and for an account that is gone. *)
Definition bob_token : token :=
  issued_or_malformed
    (create_token sign str settings (inl "bob-id") ACCESS None world).
Definition carol_token : token :=
  issued_or_malformed
    (create_token sign str settings (inl "carol-id") ACCESS None world).

(** A token for a subject given as a UUID. *)
Definition uuid_token : token :=
  issued_or_malformed
    (create_token sign str settings
       (inr (mkUUID 0x12345678123456781234567812345678)) ACCESS None world).

(** A bcrypt handler that never finds a match. *)
Definition no_match (plain hashed : string) : outcome bool := Return false.

Definition alice : User := mkUser "alice-id" "alice" true.
Definition bob : User := mkUser "bob-id" "bob" false.
Definition db : list User := [alice; bob].

End Sample.

(** Two states a computation that only reads the clock can lie between:
    nothing but the number of clock readings differs. *)
Definition clock_advanced (w w' : World) : Prop :=
  clock w' = clock w ∧ entropy w' = entropy w ∧
  entropy_draws w' = entropy_draws w ∧ blacklist w' = blacklist w ∧
  store_lookups w' = store_lookups w ∧
  (clock_reads w' = clock_reads w ∨ clock_reads w' = S (clock_reads w) ∨
   clock_reads w' = S (S (clock_reads w))).

(** The time-to-live the simple helper adds to its first clock reading. *)
Definition helper_ttl (settings : Settings) (expires_minutes : option Z) : Z :=
  match expires_minutes with
  | Some m => if truthy_int m then m * 60000000
              else ACCESS_TOKEN_EXPIRE_MINUTES settings * 60000000
  | None => ACCESS_TOKEN_EXPIRE_MINUTES settings * 60000000
  end.

(** Claims the caller of the simple helper may pass without the library
    refusing the token on the way back: none of [nbf], [aud], [at_hash],
    and [sub] and [jti] strings when present. *)
Definition plain_claims (data : gmap string pyval) : Prop :=
  data !! "nbf" = None ∧ data !! "aud" = None ∧ data !! "at_hash" = None ∧
  (∀ v, data !! "sub" = Some v → ∃ s, v = PJson (JStr s)) ∧
  (∀ v, data !! "jti" = Some v → ∃ s, v = PJson (JStr s)).

(** ** app/schemas/auth.py *)

(** A Python string where its characters matter: the list of its code
    points. *)
Definition codepoints (s : string) : list N :=
  List.map N_of_ascii (list_ascii_of_string s).

Section PasswordRules.

(** [str.isupper], [str.islower] and [str.isdigit] on one character, as
    the Unicode database of the interpreter classifies it. *)
Variables isupper islower isdigit : N -> bool.

(** [UserRegister.validate_password_strength]. *)
Definition validate_password_strength (v : list N) : outcome (list N) :=
  if (length v <? 8)%nat then
    Raise (ValueError "Password must be at least 8 characters long")
  else if negb (existsb isupper v) then
    Raise (ValueError "Password must contain at least one uppercase letter")
  else if negb (existsb islower v) then
    Raise (ValueError "Password must contain at least one lowercase letter")
  else if negb (existsb isdigit v) then
    Raise (ValueError "Password must contain at least one digit")
  else Return v.

End PasswordRules.

(** ** app/main.py: the calculation endpoints *)

#[global] Instance UUID_eq_dec : EqDecision UUID.
Proof. solve_decision. Defined.

Section Calculations.

(** The columns of a calculation other than its id and its owner. *)
Variable Body : Type.

(** [app.models.calculation.Calculation], a row of the table. *)
Record Calculation := mkCalculation {
  calc_id : UUID;
  calc_user_id : string;
  calc_body : Body
}.

(** [uuid.UUID(s)], nothing when it raises [ValueError]. *)
Variable parse_uuid : string -> option UUID.

(** [filter(Calculation.id == calc_uuid,
            Calculation.user_id == current_user.id)]. *)
Definition id_and_owner (calc_uuid : UUID) (current_user : User)
    (c : Calculation) : bool :=
  bool_decide (calc_id c = calc_uuid) &&
  bool_decide (calc_user_id c = id current_user).

(** The table without the first row the condition holds for:
    [db.delete(row); db.commit()] for the row [first()] returned. *)
Fixpoint delete_first (p : Calculation -> bool) (db : list Calculation)
  : list Calculation :=
  match db with
  | [] => []
  | c :: db' => if p c then db' else c :: delete_first p db'
  end.

Definition list_calculations (current_user : User) (db : list Calculation)
  : list Calculation :=
  List.filter (fun c => bool_decide (calc_user_id c = id current_user)) db.

Definition get_calculation (calc_id : string) (current_user : User)
    (db : list Calculation) : outcome Calculation :=
  match parse_uuid calc_id with
  | None =>
      Raise (HTTPException 400 "Invalid calculation id format." [])
  | Some calc_uuid =>
      match List.find (id_and_owner calc_uuid current_user) db with
      | None => Raise (HTTPException 404 "Calculation not found." [])
      | Some calculation => Return calculation
      end
  end.

(** The result and the table afterwards. *)
Definition delete_calculation (calc_id : string) (current_user : User)
    (db : list Calculation) : outcome unit * list Calculation :=
  match parse_uuid calc_id with
  | None =>
      (Raise (HTTPException 400 "Invalid calculation id format." []), db)
  | Some calc_uuid =>
      match List.find (id_and_owner calc_uuid current_user) db with
      | None => (Raise (HTTPException 404 "Calculation not found." []), db)
      | Some calculation =>
          (Return tt, delete_first (id_and_owner calc_uuid current_user) db)
      end
  end.

End Calculations.

Arguments calc_id {Body} _.
Arguments calc_user_id {Body} _.
Arguments calc_body {Body} _.
Arguments mkCalculation {Body} _ _ _.
Arguments id_and_owner {Body} _ _ _.
Arguments delete_first {Body} _ _.
Arguments list_calculations {Body} _ _.
Arguments get_calculation {Body} _ _ _ _.
Arguments delete_calculation {Body} _ _ _ _.

(** ** More of the concrete instance *)

Module Cases.

(** A configuration naming an algorithm the library does not have. *)
Definition bad_settings : Settings :=
  mkSettings "simple-key" "access-key" "refresh-key" "none" 30 7.

Definition bad_issue : outcome token * World :=
  create_token Sample.sign Sample.str bad_settings (inl "alice-id") ACCESS
               None Sample.world.

(** A refresh token for alice. *)
Definition refresh_issue : outcome token * World :=
  create_token Sample.sign Sample.str Sample.settings (inl "alice-id") REFRESH
               None Sample.world.
Definition refresh_token : token := Sample.issued_or_malformed refresh_issue.

(** A minute after issuance, someone else's token revoked. *)
Definition soon_other : World := Sample.later Sample.minute {["0123abcd"]}.

(** Claims put together by hand, signed under the access secret; and the
    same claims with something else in the place of the signature. *)
Definition bare_claims : gmap string json :=
  <["jti" := JStr "0123abcd"]>
    (<["type" := JStr "access"]> {["sub" := JStr "alice-id"]}).
Definition signed (payload : gmap string json) : token :=
  match Sample.sign "HS256" "access-key" payload with
  | Some sig => Compact "HS256" payload sig
  | None => Malformed ""
  end.
Definition forged_token : token :=
  Compact "HS256" bare_claims "not-the-signature".

(** The verification of alice's access token a minute after issuance. *)
Definition verified : outcome (gmap string json) * World :=
  decode_token Sample.sign Sample.int_of_str Sample.settings Sample.access_token ACCESS true
               Sample.soon.

(** The same for the tokens of bob and carol, and for alice's once it is
    revoked. *)
Definition verified_bob : outcome (gmap string json) * World :=
  decode_token Sample.sign Sample.int_of_str Sample.settings Sample.bob_token
               ACCESS true Sample.soon.
Definition verified_carol : outcome (gmap string json) * World :=
  decode_token Sample.sign Sample.int_of_str Sample.settings
               Sample.carol_token ACCESS true Sample.soon.
Definition verified_revoked : outcome (gmap string json) * World :=
  decode_token Sample.sign Sample.int_of_str Sample.settings
               Sample.access_token ACCESS true Sample.soon_revoked.

(** The simple helper with a role claim, a stale [exp] and an hour to
    live. *)
Definition helper_data : gmap string pyval :=
  <["role" := PJson (JStr "admin")]>
    (<["exp" := PJson (JInt 1)]> {["sub" := PJson (JStr "alice-id")]}).
Definition helper_issue : outcome token * World :=
  create_access_token Sample.sign Sample.settings helper_data (Some 60)
                      Sample.world.
Definition helper_token : token := Sample.issued_or_malformed helper_issue.

Definition helper_decoded : outcome (gmap string json) * World :=
  decode_access_token Sample.sign Sample.str Sample.int_of_str Sample.settings helper_token
                      Sample.soon.

(** The shared-secret token, revoked, a minute after issuance. *)
Definition shared_revoked : World :=
  Sample.later Sample.minute {[Sample.first_jti]}.

(** The character classes on ASCII. *)
Definition isupper (c : N) : bool := (65 <=? c)%N && (c <=? 90)%N.
Definition islower (c : N) : bool := (97 <=? c)%N && (c <=? 122)%N.
Definition isdigit (c : N) : bool := (48 <=? c)%N && (c <=? 57)%N.

(** Three calculations, the first and the last alice's. *)
Definition calc (n : N) (owner body : string) : Calculation string :=
  mkCalculation (mkUUID n) owner body.
Definition table : list (Calculation string) :=
  [calc 1 "alice-id" "2 + 3"; calc 2 "bob-id" "7 * 6"; calc 3 "alice-id" "9 / 3"].

(** A parser that knows the ids in use, in their canonical form. *)
Definition parse_uuid (s : string) : option UUID :=
  List.find (fun u => bool_decide (uuid_str u = s))
            [mkUUID 1; mkUUID 2; mkUUID 3].

Definition id1 : string := "00000000-0000-0000-0000-000000000001".
Definition id2 : string := "00000000-0000-0000-0000-000000000002".

End Cases.

(** * Properties *)

Section CodecFacts.

Variable jws_sign : string -> string -> gmap string json -> option string.
Variable exn_str : exn -> string.
Variable int_of_str : string -> option Z.
Variable settings : Settings.

Lemma issued_payload_lookup sub ty expire iat jti :
  let p := issued_payload sub ty expire iat jti in
  p !! "sub" = Some (JStr sub) ∧ p !! "type" = Some (JStr (value ty)) ∧
  p !! "exp" = Some (JInt (timegm expire)) ∧
  p !! "iat" = Some (JInt (timegm iat)) ∧ p !! "jti" = Some (JStr jti) ∧
  p !! "nbf" = None ∧ p !! "aud" = None ∧ p !! "at_hash" = None.
Proof. unfold issued_payload. repeat split; by simplify_map_eq. Qed.

Lemma encode_issued sub ty expire iat jti :
  let c : gmap string pyval :=
    <["jti" := PJson (JStr jti)]>
      (<["iat" := PDatetime iat]>
         (<["exp" := PDatetime expire]>
            (<["type" := PJson (JStr (value ty))]>
               (<["sub" := PJson (JStr sub)]> ∅)))) in
  serialisable c ∧ map_imap claim_to_json c = issued_payload sub ty expire iat jti.
Proof.
  intros c. split.
  - unfold c, serialisable. repeat apply map_Forall_insert_2; try apply map_Forall_empty; by eexists.
  - unfold c, issued_payload.
    repeat (erewrite map_imap_insert_Some; [|reflexivity]).
    by rewrite map_imap_empty.
Qed.


Ltac run_monad :=
  cbv [mbind M_bind bind ret raise try_except datetime_now token_hex
       is_blacklisted subscript utcnow_seconds] in *.

Lemma expire_run ty d w :
  let m : M Z :=
    match d with
    | Some d => if truthy_int d then now ← datetime_now; datetime_add now d
                else default_expire settings ty
    | None => default_expire settings ty
    end in
  (∃ e, m w = (Raise e, tick w)) ∨
  m w = (Return (now_of w + effective_ttl settings ty d), tick w).
Proof.
  intros m. unfold m, effective_ttl, default_expire, default_ttl,
    timedelta_minutes, timedelta_days, timedelta, datetime_add.
  run_monad.
  destruct d as [d|]; [destruct (truthy_int d)|]; try destruct ty;
    repeat (match goal with |- context [if ?b then _ else _] => destruct b end);
    eauto.
Qed.

Lemma create_token_inv user_id ty d w0 tok w1 :
  create_token jws_sign exn_str settings user_id ty d w0 = (Return tok, w1) →
  let p := issued_payload (user_id_str user_id) ty
             (now_of w0 + effective_ttl settings ty d) (now_of (tick w0))
             (entropy w0 (entropy_draws w0)) in
  ∃ sig, tok = Compact (ALGORITHM settings) p sig ∧
         jws_sign (ALGORITHM settings) (secret_for settings ty) p = Some sig ∧
         w1 = drawn (tick (tick w0)).
Proof.
  intros H p. unfold create_token in H.
  unfold mbind at 1, M_bind at 1, bind at 1 in H.
  destruct (expire_run ty d w0) as [[e He]|He]; rewrite He in H; [discriminate H|].
  unfold jwt_encode in H.
  destruct (encode_issued (user_id_str user_id) ty
              (now_of w0 + effective_ttl settings ty d) (now_of (tick w0))
              (entropy w0 (entropy_draws w0))) as [Hs Hp].
  run_monad. fold (user_id_str user_id) in H.
  change (entropy (tick (tick w0)) (entropy_draws (tick (tick w0))))
    with (entropy w0 (entropy_draws w0)) in H.
  destruct (bool_decide (ALGORITHM settings ∈ SUPPORTED)); [|discriminate H].
  rewrite decide_True in H by exact Hs.
  rewrite Hp in H. fold p in H.
  clear He Hs Hp.
  destruct (jws_sign (ALGORITHM settings) (secret_for settings ty) p) as [sig|];
    [|discriminate H].
  injection H as <- <-. exists sig. auto.
Qed.


Lemma validate_claims_issued sub ty expire iat jti ve w :
  validate_claims int_of_str (issued_payload sub ty expire iat jti) ve w =
  if ve then
    (if timegm expire <? timegm (now_of w)
     then Raise (ExpiredSignatureError "Signature has expired.")
     else Return tt, tick w)
  else (Return tt, w).
Proof.
  destruct (issued_payload_lookup sub ty expire iat jti)
    as (Hsub & Hty & Hexp & Hiat & Hjti & Hnbf & Haud & Hat).
  unfold validate_claims, validate_iat, validate_nbf, validate_exp,
    validate_aud, validate_sub, validate_jti, validate_at_hash.
  rewrite Hsub, Hexp, Hiat, Hjti, Hnbf, Haud, Hat.
  destruct ve; run_monad; cbn [builtin_int is_str]; [|reflexivity].
  destruct (timegm expire <? timegm (now_of w)); reflexivity.
Qed.

Lemma jwt_decode_signed alg p sig key ve w :
  jws_sign alg key p = Some sig →
  jwt_decode jws_sign int_of_str (Compact alg p sig) key [alg] ve w =
  match validate_claims int_of_str p ve w with
  | (Return _, w') => (Return p, w')
  | (Raise e, w') => (Raise e, w')
  end.
Proof.
  intros Hsig. unfold jwt_decode.
  rewrite bool_decide_eq_true_2 by apply list_elem_of_singleton, eq_refl.
  rewrite bool_decide_eq_true_2 by exact Hsig.
  run_monad. destruct (validate_claims int_of_str p ve w) as [[[]|e] w']; reflexivity.
Qed.

Lemma jwt_decode_unsigned alg p sig key algs ve w :
  jws_sign alg key p ≠ Some sig →
  ∃ msg, jwt_decode jws_sign int_of_str (Compact alg p sig) key algs ve w
         = (Raise (JWTError msg), w).
Proof.
  intros Hsig. unfold jwt_decode. run_monad.
  destruct (bool_decide (alg ∈ algs)); [|eauto].
  rewrite bool_decide_eq_false_2 by exact Hsig. eauto.
Qed.

(** What [decode_token] does once the library has accepted the token. *)
Lemma decode_token_accepted tok ty ve w payload w' :
  jwt_decode jws_sign int_of_str tok (secret_for settings ty) [ALGORITHM settings] ve w
    = (Return payload, w') →
  decode_token jws_sign int_of_str settings tok ty ve w =
  if bool_decide (payload !! "type" ≠ Some (JStr (value ty))) then
    (Raise (http_401 "Invalid token type"), w')
  else match payload !! "jti" with
       | None => (Raise (KeyError "jti"), w')
       | Some jti =>
           (if in_store jti w' then Raise (http_401 "Token has been revoked")
            else Return payload, queried jti w')
       end.
Proof.
  intros Hdec. unfold decode_token. run_monad. rewrite Hdec.
  destruct (bool_decide (payload !! "type" ≠ Some (JStr (value ty))));
    [reflexivity|].
  destruct (payload !! "jti") as [jti|]; [|reflexivity].
  destruct (in_store jti w'); reflexivity.
Qed.

Lemma decode_token_refused tok ty ve w e w' :
  jwt_decode jws_sign int_of_str tok (secret_for settings ty) [ALGORITHM settings] ve w
    = (Raise e, w') →
  decode_token jws_sign int_of_str settings tok ty ve w =
  (Raise match e with
         | ExpiredSignatureError _ => http_401 "Token has expired"
         | JWTClaimsError _ | JWTError _ =>
             http_401 "Could not validate credentials"
         | _ => e
         end, w').
Proof.
  intros Hdec. unfold decode_token. run_monad. rewrite Hdec.
  destruct e; reflexivity.
Qed.

Lemma in_store_tick jti w : in_store jti (tick w) = in_store jti w.
Proof. destruct jti; reflexivity. Qed.

(** A token issued for [ty], verified as [ty]. *)
Lemma decode_issued_same sub ty expire iat jti sig ve w :
  let p := issued_payload sub ty expire iat jti in
  jws_sign (ALGORITHM settings) (secret_for settings ty) p = Some sig →
  decode_token jws_sign int_of_str settings (Compact (ALGORITHM settings) p sig) ty ve w =
  if ve && (timegm expire <? timegm (now_of w)) then
    (Raise (http_401 "Token has expired"), tick w)
  else
    (if bool_decide (jti ∈ blacklist w)
     then Raise (http_401 "Token has been revoked") else Return p,
     queried (JStr jti) (if ve then tick w else w)).
Proof.
  intros p Hsig.
  pose proof (jwt_decode_signed _ _ _ _ ve w Hsig) as Hdec.
  unfold p in Hdec. rewrite validate_claims_issued in Hdec. fold p in Hdec.
  destruct (issued_payload_lookup sub ty expire iat jti)
    as (_ & Hty & _ & _ & Hjti & _).
  fold p in Hty, Hjti.
  destruct ve; cbn [andb].
  - destruct (timegm expire <? timegm (now_of w)).
    + by rewrite (decode_token_refused _ _ _ _ _ _ Hdec).
    + rewrite (decode_token_accepted _ _ _ _ _ _ Hdec), Hty, Hjti.
      rewrite bool_decide_eq_false_2 by (intros Hne; by apply Hne).
      reflexivity.
  - rewrite (decode_token_accepted _ _ _ _ _ _ Hdec), Hty, Hjti.
    rewrite bool_decide_eq_false_2 by (intros Hne; by apply Hne).
    reflexivity.
Qed.

Lemma value_inj ty ty' : value ty = value ty' → ty = ty'.
Proof. destruct ty, ty'; simpl; congruence. Qed.

(** A token issued for [ty], verified as another type. *)
Lemma decode_issued_other sub ty ty' expire iat jti sig ve w :
  let p := issued_payload sub ty expire iat jti in
  ty' ≠ ty →
  decode_token jws_sign int_of_str settings (Compact (ALGORITHM settings) p sig) ty' ve w =
  if bool_decide (jws_sign (ALGORITHM settings) (secret_for settings ty') p
                  = Some sig) then
    if ve && (timegm expire <? timegm (now_of w)) then
      (Raise (http_401 "Token has expired"), tick w)
    else (Raise (http_401 "Invalid token type"), if ve then tick w else w)
  else (Raise (http_401 "Could not validate credentials"), w).
Proof.
  intros p Hne. case_bool_decide as Hsig.
  - pose proof (jwt_decode_signed _ _ _ _ ve w Hsig) as Hdec.
    unfold p in Hdec. rewrite validate_claims_issued in Hdec. fold p in Hdec.
    destruct (issued_payload_lookup sub ty expire iat jti)
      as (_ & Hty & _).
    fold p in Hty.
    assert (Hty' : p !! "type" ≠ Some (JStr (value ty'))).
    { rewrite Hty. intros [= Hv]. apply Hne. symmetry. by apply value_inj. }
    destruct ve; cbn [andb].
    + destruct (timegm expire <? timegm (now_of w)).
      * by rewrite (decode_token_refused _ _ _ _ _ _ Hdec).
      * rewrite (decode_token_accepted _ _ _ _ _ _ Hdec).
        by rewrite bool_decide_eq_true_2.
    + rewrite (decode_token_accepted _ _ _ _ _ _ Hdec).
      by rewrite bool_decide_eq_true_2.
  - destruct (jwt_decode_unsigned _ _ _ _ [ALGORITHM settings] ve w Hsig)
      as [msg Hdec].
    by rewrite (decode_token_refused _ _ _ _ _ _ Hdec).
Qed.


(** What a successfully issued token looks like from outside. *)
Lemma issued_token_claims user_id ty d w0 tok w1 :
  create_token jws_sign exn_str settings user_id ty d w0 = (Return tok, w1) →
  ∃ jti,
    claim_of tok "sub" = Some (JStr (user_id_str user_id)) ∧
    claim_of tok "exp"
      = Some (JInt (timegm (now_of w0 + effective_ttl settings ty d))) ∧
    claim_of tok "iat" = Some (JInt (timegm (now_of (tick w0)))) ∧
    claim_of tok "jti" = Some (JStr jti) ∧
    signature_valid jws_sign tok (secret_for settings ty) = true.
Proof.
  intros H. apply create_token_inv in H as (sig & -> & Hsig & _).
  destruct (issued_payload_lookup (user_id_str user_id) ty
              (now_of w0 + effective_ttl settings ty d) (now_of (tick w0))
              (entropy w0 (entropy_draws w0)))
    as (Hsub & _ & Hexp & Hiat & Hjti & _).
  exists (entropy w0 (entropy_draws w0)). cbn [claim_of signature_valid].
  rewrite bool_decide_eq_true_2 by exact Hsig. auto.
Qed.

(** The verdict of [decode_token] on an issued token presented under its
    own type, in terms of what can be read off the token. *)
Lemma decode_issued user_id ty d w0 tok w1 ve w :
  create_token jws_sign exn_str settings user_id ty d w0 = (Return tok, w1) →
  ∃ jti payload,
    claim_of tok "jti" = Some jti ∧
    payload !! "sub" = Some (JStr (user_id_str user_id)) ∧
    decode_token jws_sign int_of_str settings tok ty ve w =
    if ve && expired_at tok w then
      (Raise (http_401 "Token has expired"), tick w)
    else
      (if revoked_in tok w
       then Raise (http_401 "Token has been revoked") else Return payload,
       queried jti (if ve then tick w else w)).
Proof.
  intros H. apply create_token_inv in H as (sig & -> & Hsig & _).
  set (p := issued_payload _ _ _ _ _) in *.
  destruct (issued_payload_lookup (user_id_str user_id) ty
              (now_of w0 + effective_ttl settings ty d) (now_of (tick w0))
              (entropy w0 (entropy_draws w0)))
    as (Hsub & _ & Hexp & _ & Hjti & _).
  fold p in Hsub, Hexp, Hjti.
  exists (JStr (entropy w0 (entropy_draws w0))), p.
  unfold expired_at, revoked_in. cbn [claim_of].
  rewrite Hexp, Hjti. cbn [mbind option_bind claim_seconds in_store].
  split; [reflexivity|]. split; [exact Hsub|].
  exact (decode_issued_same _ _ _ _ _ _ ve w Hsig).
Qed.

(** C1 (as amended): an access token issued by [create_token] and
    presented as a refresh token is always rejected.  The signature is
    checked first, against the refresh secret: when it does not verify
    under that secret the rejection is "Could not validate credentials";
    only when it also verifies under the refresh secret (the two secrets
    coincide, say) and the token has not expired is the rejection
    "Invalid token type". *)
Theorem decode_access_as_refresh_rejected user_id d w0 tok w1 ve w :
  create_token jws_sign exn_str settings user_id ACCESS d w0 = (Return tok, w1) →
  (signature_valid jws_sign tok (JWT_REFRESH_SECRET_KEY settings) = false →
   decode_token jws_sign int_of_str settings tok REFRESH ve w
   = (Raise (http_401 "Could not validate credentials"), w)) ∧
  (signature_valid jws_sign tok (JWT_REFRESH_SECRET_KEY settings) = true →
   ve && expired_at tok w = false →
   decode_token jws_sign int_of_str settings tok REFRESH ve w
   = (Raise (http_401 "Invalid token type"), if ve then tick w else w)) ∧
  (∀ payload w',
     decode_token jws_sign int_of_str settings tok REFRESH ve w ≠ (Return payload, w')).
Proof.
  intros H. apply create_token_inv in H as (sig & -> & _ & _).
  set (p := issued_payload _ _ _ _ _) in *.
  assert (Hne : REFRESH ≠ ACCESS) by discriminate.
  pose proof (decode_issued_other (user_id_str user_id) ACCESS REFRESH
                (now_of w0 + effective_ttl settings ACCESS d) (now_of (tick w0))
                (entropy w0 (entropy_draws w0)) sig ve w Hne) as Hd.
  cbn zeta in Hd. fold p in Hd.
  destruct (issued_payload_lookup (user_id_str user_id) ACCESS
              (now_of w0 + effective_ttl settings ACCESS d) (now_of (tick w0))
              (entropy w0 (entropy_draws w0)))
    as (_ & _ & Hexp & _).
  fold p in Hexp.
  unfold expired_at. cbn [claim_of signature_valid secret_for] in *.
  rewrite Hexp. cbn [mbind option_bind claim_seconds].
  rewrite Hd. clear Hd.
  destruct (bool_decide (jws_sign (ALGORITHM settings)
              (JWT_REFRESH_SECRET_KEY settings) p = Some sig)).
  - split; [discriminate|]. split.
    + intros _ ->. reflexivity.
    + intros payload w'. destruct (ve && _); discriminate.
  - split; [reflexivity|]. split; [discriminate|]. discriminate.
Qed.

(** C2 (as amended): while its identifier is in the revocation store, a
    token issued by [create_token] and presented under its own type is
    reported revoked as long as it has not expired, or whenever expiry is
    not being verified; once its [exp] has passed, a verification with
    [verify_exp] reports it expired instead, the store is not asked. *)
Theorem revoked_until_expired user_id ty d w0 tok w1 ve w :
  create_token jws_sign exn_str settings user_id ty d w0 = (Return tok, w1) →
  revoked_in tok w = true →
  ∃ jti,
    claim_of tok "jti" = Some jti ∧
    decode_token jws_sign int_of_str settings tok ty ve w =
    if ve && expired_at tok w
    then (Raise (http_401 "Token has expired"), tick w)
    else (Raise (http_401 "Token has been revoked"),
          queried jti (if ve then tick w else w)).
Proof.
  intros H Hrev.
  destruct (decode_issued _ _ _ _ _ _ ve w H) as (jti & payload & Hjti & _ & Hd).
  exists jti. split; [exact Hjti|]. rewrite Hd, Hrev. reflexivity.
Qed.

(** C3: a token issued by [create_token] whose [exp] lies in the past is
    rejected with "Token has expired" by a verification under its own
    type with [verify_exp], whatever the revocation store holds; the
    store is not asked, the only effect is the reading of the clock. *)
Theorem expired_token_rejected user_id ty d w0 tok w1 w :
  create_token jws_sign exn_str settings user_id ty d w0 = (Return tok, w1) →
  expired_at tok w = true →
  decode_token jws_sign int_of_str settings tok ty true w
  = (Raise (http_401 "Token has expired"), tick w) ∧
  store_lookups (decode_token jws_sign int_of_str settings tok ty true w).2
  = store_lookups w.
Proof.
  intros H Hexp.
  destruct (decode_issued _ _ _ _ _ _ true w H) as (jti & payload & _ & _ & Hd).
  rewrite Hd, Hexp. split; reflexivity.
Qed.

(** C4 (as amended): a token issued by [create_token] whose identifier
    is in the revocation store, verified under its own type before its
    expiry, is rejected with "Token has been revoked"; every verification
    of such a token under its own type that gets past the expiry check
    asks the store about the token's [jti], once.  For any token at all
    that the library has accepted and whose [type] claim is the expected
    one, the store is asked about the [jti] claim when the payload has
    one; when it has none the verification ends in a [KeyError] raised by
    [payload["jti"]], and the store has not been asked. *)
Theorem revoked_token_rejected user_id ty d w0 tok w1 w :
  create_token jws_sign exn_str settings user_id ty d w0 = (Return tok, w1) →
  revoked_in tok w = true →
  expired_at tok w = false →
  (∃ jti,
     claim_of tok "jti" = Some jti ∧
     decode_token jws_sign int_of_str settings tok ty true w
     = (Raise (http_401 "Token has been revoked"), queried jti (tick w)) ∧
     (∀ ve w3,
        ve && expired_at tok w3 = false →
        store_lookups (decode_token jws_sign int_of_str settings tok ty ve w3).2
        = jti :: store_lookups w3)) ∧
  (∀ tok' ty' ve w2 payload w2',
     jwt_decode jws_sign int_of_str tok' (secret_for settings ty')
                [ALGORITHM settings] ve w2 = (Return payload, w2') →
     payload !! "type" = Some (JStr (value ty')) →
     match payload !! "jti" with
     | Some jti =>
         store_lookups
           (decode_token jws_sign int_of_str settings tok' ty' ve w2).2
         = jti :: store_lookups w2'
     | None =>
         decode_token jws_sign int_of_str settings tok' ty' ve w2
         = (Raise (KeyError "jti"), w2') ∧
         store_lookups
           (decode_token jws_sign int_of_str settings tok' ty' ve w2).2
         = store_lookups w2'
     end).
Proof.
  intros H Hrev Hexp. split.
  - destruct (decode_issued _ _ _ _ _ _ true w H)
      as (jti & payload & Hjti & _ & Hd).
    exists jti. split; [exact Hjti|]. split.
    + rewrite Hd, Hrev, Hexp. reflexivity.
    + intros ve w3 Hve.
      destruct (decode_issued _ _ _ _ _ _ ve w3 H)
        as (jti' & payload' & Hjti' & _ & Hd').
      rewrite Hjti in Hjti'. injection Hjti' as <-.
      rewrite Hd', Hve. destruct ve; reflexivity.
  - intros tok' ty' ve w2 payload w2' Hdec Hty.
    rewrite (decode_token_accepted _ _ _ _ _ _ Hdec), Hty.
    rewrite bool_decide_eq_false_2 by (intros Hne; by apply Hne).
    destruct (payload !! "jti") as [jti|]; [reflexivity|].
    split; reflexivity.
Qed.

(** C5: an access token issued by [create_token], verified as an access
    token while unexpired and not revoked, is accepted, and the payload
    returned carries the subject it was issued for, a UUID in its string
    form. *)
Theorem issued_access_token_verifies user_id d w0 tok w1 w :
  create_token jws_sign exn_str settings user_id ACCESS d w0 = (Return tok, w1) →
  revoked_in tok w = false →
  expired_at tok w = false →
  ∃ payload w',
    decode_token jws_sign int_of_str settings tok ACCESS true w = (Return payload, w') ∧
    payload !! "sub" = Some (JStr (user_id_str user_id)).
Proof.
  intros H Hrev Hexp.
  destruct (decode_issued _ _ _ _ _ _ true w H)
    as (jti & payload & _ & Hsub & Hd).
  exists payload, (queried jti (tick w)).
  rewrite Hd, Hrev, Hexp. auto.
Qed.


Lemma query_first_none db user_id :
  Forall (fun u => JStr (id u) ≠ user_id) db → query_first db user_id = None.
Proof.
  unfold query_first. induction 1 as [|u db Hu _ IH]; [reflexivity|].
  cbn [find]. rewrite bool_decide_eq_false_2 by exact Hu. exact IH.
Qed.

(** The record the query returns is the first one of the table whose id
    is the one asked for. *)
Lemma query_first_found db user_id l1 u l2 :
  db = (l1 ++ u :: l2)%list →
  Forall (fun x => JStr (id x) ≠ user_id) l1 →
  JStr (id u) = user_id →
  query_first db user_id = Some u.
Proof.
  intros -> Hl1 Hu. unfold query_first.
  induction Hl1 as [|x l1 Hx _ IH]; cbn [app find].
  - by rewrite bool_decide_eq_true_2.
  - rewrite bool_decide_eq_false_2 by exact Hx. exact IH.
Qed.

(** With ids unique in the table, it is the record with that id. *)
Lemma query_first_unique db user_id u :
  NoDup (List.map id db) → u ∈ db → JStr (id u) = user_id →
  query_first db user_id = Some u.
Proof.
  intros Hnd Hin Hu.
  apply list_elem_of_split in Hin as (l1 & l2 & ->).
  apply (query_first_found _ _ l1 u l2 eq_refl); [|exact Hu].
  rewrite map_app in Hnd. cbn [List.map] in Hnd.
  apply NoDup_app in Hnd as (_ & Hdisj & _).
  apply Forall_forall. intros x Hx Hid.
  apply (Hdisj (id x)).
  - apply list_elem_of_In, in_map, list_elem_of_In. exact Hx.
  - rewrite <-Hu in Hid. injection Hid as ->. left.
Qed.

(** C6: [get_current_user] verifies the token as an access token first
    and passes on a failure of that verification as a 401 carrying the
    text of the error.  After a successful verification it looks the
    [sub] claim up.  When no record has that id the "User not found"
    error is raised.  When a record has it, the first such record of
    the table, which with unique ids is the record with that id, is the
    one found: it is returned when active, and when it is inactive
    the "Inactive user" error is raised.  Both errors reach the caller
    inside the 401 the function wraps every error in. *)
Theorem get_current_user_resolves tok db w :
  (∀ e w',
     decode_token jws_sign int_of_str settings tok ACCESS true w
     = (Raise e, w') →
     get_current_user jws_sign exn_str int_of_str settings tok db w
     = (Raise (http_401 (exn_str e)), w')) ∧
  (∀ payload w' user_id,
     decode_token jws_sign int_of_str settings tok ACCESS true w
     = (Return payload, w') →
     payload !! "sub" = Some user_id →
     (Forall (fun u => JStr (id u) ≠ user_id) db →
      get_current_user jws_sign exn_str int_of_str settings tok db w
      = (Raise (http_401 (exn_str
           (HTTPException HTTP_404_NOT_FOUND "User not found" []))), w')) ∧
     (∀ l1 u l2,
        db = (l1 ++ u :: l2)%list →
        Forall (fun x => JStr (id x) ≠ user_id) l1 →
        JStr (id u) = user_id →
        get_current_user jws_sign exn_str int_of_str settings tok db w
        = if is_active u then (Return u, w')
          else (Raise (http_401 (exn_str
                 (HTTPException HTTP_400_BAD_REQUEST "Inactive user" []))),
                w')) ∧
     (∀ u, NoDup (List.map id db) → u ∈ db → JStr (id u) = user_id →
        get_current_user jws_sign exn_str int_of_str settings tok db w
        = if is_active u then (Return u, w')
          else (Raise (http_401 (exn_str
                 (HTTPException HTTP_400_BAD_REQUEST "Inactive user" []))),
                w')) ∧
     (∀ u, query_first db user_id = Some u →
        JStr (id u) = user_id ∧ u ∈ db ∧
        get_current_user jws_sign exn_str int_of_str settings tok db w
        = if is_active u then (Return u, w')
          else (Raise (http_401 (exn_str
                 (HTTPException HTTP_400_BAD_REQUEST "Inactive user" []))),
                w'))).
Proof.
  unfold get_current_user. run_monad.
  destruct (decode_token jws_sign int_of_str settings tok ACCESS true w)
    as [[payload|e] w0].
  - split; [discriminate|].
    intros p w' user_id [= <- <-] Hsub. rewrite Hsub.
    split; [|split; [|split]].
    + intros Hall. rewrite (query_first_none _ _ Hall). reflexivity.
    + intros l1 u l2 Hdb Hl1 Hu.
      rewrite (query_first_found _ _ _ _ _ Hdb Hl1 Hu).
      destruct (is_active u); reflexivity.
    + intros u Hnd Hin Hu.
      rewrite (query_first_unique _ _ _ Hnd Hin Hu).
      destruct (is_active u); reflexivity.
    + intros u Hq. rewrite Hq.
      unfold query_first in Hq. apply find_some in Hq as [Hin Hid].
      apply bool_decide_eq_true_1 in Hid.
      split; [exact Hid|]. split; [by apply list_elem_of_In|].
      destruct (is_active u); reflexivity.
  - split; [|discriminate].
    intros e' w' [= <- <-]. reflexivity.
Qed.

(** A non-zero [expires_delta] is what [create_token] adds to its first
    clock reading. *)
Lemma create_token_nonzero_delta user_id ty d w0 tok w1 :
  d ≠ 0 →
  create_token jws_sign exn_str settings user_id ty (Some d) w0
    = (Return tok, w1) →
  claim_of tok "exp" = Some (JInt (timegm (now_of w0 + d))).
Proof.
  intros Hd H. apply issued_token_claims in H as (jti & _ & Hexp & _).
  rewrite Hexp. unfold effective_ttl, truthy_int.
  destruct (Z.eqb_spec d 0); [contradiction|reflexivity].
Qed.

(** A zero [expires_delta] is falsy: the configured default is used. *)
Lemma create_token_zero_delta user_id ty w0 tok w1 :
  create_token jws_sign exn_str settings user_id ty (Some 0) w0
    = (Return tok, w1) →
  claim_of tok "exp"
  = Some (JInt (timegm (now_of w0 + default_ttl settings ty))).
Proof.
  intros H. apply issued_token_claims in H as (jti & _ & Hexp & _).
  exact Hexp.
Qed.

Lemma timegm_lt (a b : Z) : a + 1000000 ≤ b → timegm a < timegm b.
Proof.
  intros Hab. unfold timegm.
  assert (H1 : (a + 1 * 1000000) / 1000000 = a / 1000000 + 1)
    by (apply Z.div_add; lia).
  assert (H2 : (a + 1 * 1000000) / 1000000 ≤ b / 1000000)
    by (apply Z.div_le_mono; lia).
  lia.
Qed.

(** C9 (as amended): in the payload of a token issued by [create_token],
    [exp] is strictly later than [iat] whenever the time-to-live in
    effect, the supplied non-zero [expires_delta] or else the configured
    default of the token type, is at least one second longer than the
    time that passes between the function's two readings of the clock. *)
Theorem exp_after_iat user_id ty d w0 tok w1 :
  create_token jws_sign exn_str settings user_id ty d w0 = (Return tok, w1) →
  now_of (tick w0) - now_of w0 + 1000000 ≤ effective_ttl settings ty d →
  ∃ exp iat,
    claim_of tok "exp" = Some (JInt exp) ∧
    claim_of tok "iat" = Some (JInt iat) ∧
    iat < exp.
Proof.
  intros H Httl. apply issued_token_claims in H as (jti & _ & Hexp & Hiat & _).
  eexists _, _. split; [exact Hexp|]. split; [exact Hiat|].
  apply timegm_lt. lia.
Qed.

(** C10: a token the library accepts under the expected type's secret
    (valid signature, unexpired, well-formed claims) and whose [type]
    claim is the expected one, but which has no [jti] claim, makes
    [decode_token] raise [KeyError], which none of its handlers turns
    into a rejection. *)
Theorem decode_token_missing_jti tok ty ve w payload w' :
  jwt_decode jws_sign int_of_str tok (secret_for settings ty) [ALGORITHM settings] ve w
    = (Return payload, w') →
  payload !! "type" = Some (JStr (value ty)) →
  payload !! "jti" = None →
  decode_token jws_sign int_of_str settings tok ty ve w = (Raise (KeyError "jti"), w').
Proof.
  intros Hdec Hty Hjti.
  rewrite (decode_token_accepted _ _ _ _ _ _ Hdec), Hty, Hjti.
  rewrite bool_decide_eq_false_2 by (intros Hne; by apply Hne).
  reflexivity.
Qed.

End CodecFacts.

(** C7 (as amended): for a hash string that carries none of the bcrypt
    identifiers, [verify_password] does not return: the context cannot
    identify the hash and its [UnknownHashError] leaves the function. *)
Theorem verify_password_unidentified bcrypt_verify plain hashed :
  bcrypt_identify hashed = false →
  verify_password bcrypt_verify plain hashed
  = Raise (UnknownHashError "hash could not be identified").
Proof.
  intros Hid. unfold verify_password, pwd_context_verify.
  rewrite Hid. reflexivity.
Qed.

(** * The properties on the concrete instance *)

Ltac by_running := vm_compute; reflexivity.

Example uuid_str_example :
  uuid_str (mkUUID 0x12345678123456781234567812345678%N)
  = "12345678-1234-5678-1234-567812345678".
Proof. reflexivity. Qed.

Lemma issue_eta {A} (r : outcome A * World) (a : A) :
  r.1 = Return a → r = (Return a, r.2).
Proof. destruct r as [o w]. cbn. by intros ->. Qed.

Ltac issued := apply issue_eta; by_running.

Lemma raise_eta {A} (r : outcome A * World) (e : exn) :
  r.1 = Raise e → r = (Raise e, r.2).
Proof. destruct r as [o w]. cbn. by intros ->. Qed.

Lemma decode_access_as_refresh_rejected_witness :
  Sample.access_issue = (Return Sample.access_token, Sample.access_issue.2) ∧
  decode_token Sample.sign Sample.int_of_str Sample.settings Sample.access_token REFRESH true
               Sample.soon
  = (Raise (http_401 "Could not validate credentials"), Sample.soon).
Proof.
  assert (H : Sample.access_issue
              = (Return Sample.access_token, Sample.access_issue.2))
    by issued.
  assert (Hsig : signature_valid Sample.sign Sample.access_token
                   (JWT_REFRESH_SECRET_KEY Sample.settings) = false)
    by by_running.
  split; [exact H|].
  exact (proj1 (decode_access_as_refresh_rejected Sample.sign Sample.str Sample.int_of_str
                  Sample.settings (inl "alice-id") None Sample.world
                  Sample.access_token Sample.access_issue.2 true Sample.soon H)
               Hsig).
Defined.

(** C1, as stated, fails: with independent secrets the access token does
    not verify under the refresh secret, and the rejection is the
    signature error, not "Invalid token type". *)
Lemma access_as_refresh_signature_error :
  Sample.access_issue.1 = Return Sample.access_token ∧
  (decode_token Sample.sign Sample.int_of_str Sample.settings Sample.access_token REFRESH true
                Sample.soon).1
  = Raise (http_401 "Could not validate credentials") ∧
  (decode_token Sample.sign Sample.int_of_str Sample.settings Sample.access_token REFRESH true
                Sample.soon).1
  ≠ Raise (http_401 "Invalid token type").
Proof.
  split; [by_running|].
  assert (H : (decode_token Sample.sign Sample.int_of_str Sample.settings Sample.access_token
                 REFRESH true Sample.soon).1
              = Raise (http_401 "Could not validate credentials"))
    by by_running.
  split; [exact H|]. rewrite H. discriminate.
Qed.

(** With one secret for both types the type check is what rejects. *)
Example access_as_refresh_shared_secret :
  (decode_token Sample.sign Sample.int_of_str Sample.shared_settings Sample.shared_token REFRESH
                true Sample.soon).1
  = Raise (http_401 "Invalid token type").
Proof. by_running. Qed.

Lemma revoked_until_expired_witness :
  Sample.access_issue = (Return Sample.access_token, Sample.access_issue.2) ∧
  revoked_in Sample.access_token Sample.soon_revoked = true ∧
  ∃ jti,
    claim_of Sample.access_token "jti" = Some jti ∧
    decode_token Sample.sign Sample.int_of_str Sample.settings Sample.access_token ACCESS true
                 Sample.soon_revoked
    = if true && expired_at Sample.access_token Sample.soon_revoked
      then (Raise (http_401 "Token has expired"), tick Sample.soon_revoked)
      else (Raise (http_401 "Token has been revoked"),
            queried jti (tick Sample.soon_revoked)).
Proof.
  assert (H : Sample.access_issue
              = (Return Sample.access_token, Sample.access_issue.2))
    by issued.
  assert (Hrev : revoked_in Sample.access_token Sample.soon_revoked = true)
    by by_running.
  split; [exact H|]. split; [exact Hrev|].
  exact (revoked_until_expired Sample.sign Sample.str Sample.int_of_str Sample.settings
           (inl "alice-id") ACCESS None Sample.world Sample.access_token
           Sample.access_issue.2 true Sample.soon_revoked H Hrev).
Defined.

(** C2, as stated, fails: two hours after issuance the revoked token is
    reported expired, although its identifier is still in the store. *)
Lemma revoked_token_reported_expired :
  Sample.access_issue.1 = Return Sample.access_token ∧
  revoked_in Sample.access_token Sample.late_revoked = true ∧
  expired_at Sample.access_token Sample.late_revoked = true ∧
  (decode_token Sample.sign Sample.int_of_str Sample.settings Sample.access_token ACCESS true
                Sample.late_revoked).1
  = Raise (http_401 "Token has expired") ∧
  (decode_token Sample.sign Sample.int_of_str Sample.settings Sample.access_token ACCESS true
                Sample.late_revoked).1
  ≠ Raise (http_401 "Token has been revoked").
Proof.
  split; [by_running|]. split; [by_running|]. split; [by_running|].
  assert (H : (decode_token Sample.sign Sample.int_of_str Sample.settings Sample.access_token
                 ACCESS true Sample.late_revoked).1
              = Raise (http_401 "Token has expired"))
    by by_running.
  split; [exact H|]. rewrite H. discriminate.
Qed.

Lemma expired_token_rejected_witness :
  Sample.access_issue = (Return Sample.access_token, Sample.access_issue.2) ∧
  expired_at Sample.access_token Sample.late_revoked = true ∧
  decode_token Sample.sign Sample.int_of_str Sample.settings Sample.access_token ACCESS true
               Sample.late_revoked
  = (Raise (http_401 "Token has expired"), tick Sample.late_revoked) ∧
  store_lookups
    (decode_token Sample.sign Sample.int_of_str Sample.settings Sample.access_token ACCESS true
                  Sample.late_revoked).2
  = store_lookups Sample.late_revoked.
Proof.
  assert (H : Sample.access_issue
              = (Return Sample.access_token, Sample.access_issue.2))
    by issued.
  assert (Hexp : expired_at Sample.access_token Sample.late_revoked = true)
    by by_running.
  split; [exact H|]. split; [exact Hexp|].
  exact (expired_token_rejected Sample.sign Sample.str Sample.int_of_str Sample.settings
           (inl "alice-id") ACCESS None Sample.world Sample.access_token
           Sample.access_issue.2 Sample.late_revoked H Hexp).
Defined.

Lemma revoked_token_rejected_witness :
  Sample.access_issue = (Return Sample.access_token, Sample.access_issue.2) ∧
  revoked_in Sample.access_token Sample.soon_revoked = true ∧
  expired_at Sample.access_token Sample.soon_revoked = false ∧
  ∃ jti,
    claim_of Sample.access_token "jti" = Some jti ∧
    decode_token Sample.sign Sample.int_of_str Sample.settings
                 Sample.access_token ACCESS true Sample.soon_revoked
    = (Raise (http_401 "Token has been revoked"),
       queried jti (tick Sample.soon_revoked)) ∧
    (∀ ve w3,
       ve && expired_at Sample.access_token w3 = false →
       store_lookups
         (decode_token Sample.sign Sample.int_of_str Sample.settings
                       Sample.access_token ACCESS ve w3).2
       = jti :: store_lookups w3).
Proof.
  assert (H : Sample.access_issue
              = (Return Sample.access_token, Sample.access_issue.2))
    by issued.
  assert (Hrev : revoked_in Sample.access_token Sample.soon_revoked = true)
    by by_running.
  assert (Hexp : expired_at Sample.access_token Sample.soon_revoked = false)
    by by_running.
  split; [exact H|]. split; [exact Hrev|]. split; [exact Hexp|].
  exact (proj1 (revoked_token_rejected Sample.sign Sample.str
                  Sample.int_of_str Sample.settings
                  (inl "alice-id") ACCESS None Sample.world Sample.access_token
                  Sample.access_issue.2 Sample.soon_revoked H Hrev Hexp)).
Defined.

(** C4, as stated, fails in its last clause: a token made by the simple
    helper with a [type] claim, under a secret shared with the access
    tokens, passes the signature, expiry and type checks, and the
    verification ends in a [KeyError] without the store having been
    asked. *)
Lemma store_not_consulted_without_jti :
  Sample.helper_issue.1 = Return Sample.helper_token ∧
  (jwt_decode Sample.sign Sample.int_of_str Sample.helper_token
              (secret_for Sample.shared_settings ACCESS)
              [ALGORITHM Sample.shared_settings] true Sample.soon).1
  = Return (Sample.payload_of Sample.helper_token) ∧
  Sample.payload_of Sample.helper_token !! "type"
  = Some (JStr (value ACCESS)) ∧
  Sample.payload_of Sample.helper_token !! "jti" = None ∧
  (decode_token Sample.sign Sample.int_of_str Sample.shared_settings
                Sample.helper_token ACCESS true Sample.soon).1
  = Raise (KeyError "jti") ∧
  store_lookups
    (decode_token Sample.sign Sample.int_of_str Sample.shared_settings
                  Sample.helper_token ACCESS true Sample.soon).2
  = [] ∧
  store_lookups Sample.soon = [].
Proof. repeat split; by_running. Qed.

Lemma issued_access_token_verifies_witness :
  Sample.access_issue = (Return Sample.access_token, Sample.access_issue.2) ∧
  revoked_in Sample.access_token Sample.access_issue.2 = false ∧
  expired_at Sample.access_token Sample.access_issue.2 = false ∧
  ∃ payload w',
    decode_token Sample.sign Sample.int_of_str Sample.settings Sample.access_token ACCESS true
                 Sample.access_issue.2 = (Return payload, w') ∧
    payload !! "sub" = Some (JStr "alice-id").
Proof.
  assert (H : Sample.access_issue
              = (Return Sample.access_token, Sample.access_issue.2))
    by issued.
  assert (Hrev : revoked_in Sample.access_token Sample.access_issue.2 = false)
    by by_running.
  assert (Hexp : expired_at Sample.access_token Sample.access_issue.2 = false)
    by by_running.
  split; [exact H|]. split; [exact Hrev|]. split; [exact Hexp|].
  exact (issued_access_token_verifies Sample.sign Sample.str Sample.int_of_str Sample.settings
           (inl "alice-id") None Sample.world Sample.access_token
           Sample.access_issue.2 Sample.access_issue.2 H Hrev Hexp).
Defined.

(** C5 with a UUID subject: the payload carries its string form. *)
Example uuid_subject_round_trip :
  match (decode_token Sample.sign Sample.int_of_str Sample.settings Sample.uuid_token ACCESS true
                      Sample.soon).1 with
  | Return payload =>
      payload !! "sub" = Some (JStr "12345678-1234-5678-1234-567812345678")
  | Raise _ => False
  end.
Proof. by_running. Qed.

Lemma get_current_user_resolves_witness :
  (Cases.verified_revoked
   = (Raise (http_401 "Token has been revoked"), Cases.verified_revoked.2) ∧
   get_current_user Sample.sign Sample.str Sample.int_of_str Sample.settings
                    Sample.access_token Sample.db Sample.soon_revoked
   = (Raise (http_401 (Sample.str (http_401 "Token has been revoked"))),
      Cases.verified_revoked.2)) ∧
  (Cases.verified
   = (Return (Sample.payload_of Sample.access_token), Cases.verified.2) ∧
   Sample.payload_of Sample.access_token !! "sub" = Some (JStr "alice-id") ∧
   Sample.db = ([] ++ Sample.alice :: [Sample.bob])%list ∧
   get_current_user Sample.sign Sample.str Sample.int_of_str Sample.settings
                    Sample.access_token Sample.db Sample.soon
   = (Return Sample.alice, Cases.verified.2)) ∧
  (Cases.verified_bob
   = (Return (Sample.payload_of Sample.bob_token), Cases.verified_bob.2) ∧
   Sample.payload_of Sample.bob_token !! "sub" = Some (JStr "bob-id") ∧
   NoDup (List.map id Sample.db) ∧ Sample.bob ∈ Sample.db ∧
   get_current_user Sample.sign Sample.str Sample.int_of_str Sample.settings
                    Sample.bob_token Sample.db Sample.soon
   = (Raise (http_401 (Sample.str
        (HTTPException HTTP_400_BAD_REQUEST "Inactive user" []))),
      Cases.verified_bob.2)) ∧
  (Cases.verified_carol
   = (Return (Sample.payload_of Sample.carol_token), Cases.verified_carol.2) ∧
   Sample.payload_of Sample.carol_token !! "sub" = Some (JStr "carol-id") ∧
   Forall (fun u => JStr (id u) ≠ JStr "carol-id") Sample.db ∧
   get_current_user Sample.sign Sample.str Sample.int_of_str Sample.settings
                    Sample.carol_token Sample.db Sample.soon
   = (Raise (http_401 (Sample.str
        (HTTPException HTTP_404_NOT_FOUND "User not found" []))),
      Cases.verified_carol.2)).
Proof.
  assert (Hr : Cases.verified_revoked
               = (Raise (http_401 "Token has been revoked"),
                  Cases.verified_revoked.2))
    by (apply raise_eta; by_running).
  assert (Ha : Cases.verified
               = (Return (Sample.payload_of Sample.access_token),
                  Cases.verified.2)) by issued.
  assert (Hb : Cases.verified_bob
               = (Return (Sample.payload_of Sample.bob_token),
                  Cases.verified_bob.2)) by issued.
  assert (Hc : Cases.verified_carol
               = (Return (Sample.payload_of Sample.carol_token),
                  Cases.verified_carol.2)) by issued.
  assert (Hsa : Sample.payload_of Sample.access_token !! "sub"
                = Some (JStr "alice-id")) by by_running.
  assert (Hsb : Sample.payload_of Sample.bob_token !! "sub"
                = Some (JStr "bob-id")) by by_running.
  assert (Hsc : Sample.payload_of Sample.carol_token !! "sub"
                = Some (JStr "carol-id")) by by_running.
  assert (Hnd : NoDup (List.map id Sample.db)).
  { cbn. apply NoDup_cons. split; [|apply NoDup_singleton].
    intros Hin. apply list_elem_of_singleton in Hin. discriminate Hin. }
  assert (Hin : Sample.bob ∈ Sample.db) by (right; left).
  assert (Hall : Forall (fun u => JStr (id u) ≠ JStr "carol-id") Sample.db).
  { repeat constructor; discriminate. }
  split; [|split; [|split]].
  - split; [exact Hr|].
    exact (proj1 (get_current_user_resolves Sample.sign Sample.str
                    Sample.int_of_str Sample.settings Sample.access_token
                    Sample.db Sample.soon_revoked) _ _ Hr).
  - split; [exact Ha|]. split; [exact Hsa|]. split; [reflexivity|].
    exact (proj1 (proj2 (proj2 (get_current_user_resolves Sample.sign
                    Sample.str Sample.int_of_str Sample.settings
                    Sample.access_token Sample.db Sample.soon) _ _ _ Ha Hsa))
             [] Sample.alice [Sample.bob] eq_refl (Forall_nil_2 _) eq_refl).
  - split; [exact Hb|]. split; [exact Hsb|]. split; [exact Hnd|].
    split; [exact Hin|].
    exact (proj1 (proj2 (proj2 (proj2 (get_current_user_resolves Sample.sign
                    Sample.str Sample.int_of_str Sample.settings
                    Sample.bob_token Sample.db Sample.soon) _ _ _ Hb Hsb)))
             Sample.bob Hnd Hin eq_refl).
  - split; [exact Hc|]. split; [exact Hsc|]. split; [exact Hall|].
    exact (proj1 (proj2 (get_current_user_resolves Sample.sign
                    Sample.str Sample.int_of_str Sample.settings
                    Sample.carol_token Sample.db Sample.soon) _ _ _ Hc Hsc)
             Hall).
Defined.

(** C6 on the sample database: alice is active, bob is not, carol has no
    record. *)
Example get_current_user_alice :
  (get_current_user Sample.sign Sample.str Sample.int_of_str Sample.settings Sample.access_token
                    Sample.db Sample.soon).1
  = Return Sample.alice.
Proof. by_running. Qed.

Example get_current_user_bob :
  (get_current_user Sample.sign Sample.str Sample.int_of_str Sample.settings Sample.bob_token
                    Sample.db Sample.soon).1
  = Raise (http_401 "400: Inactive user").
Proof. by_running. Qed.

Example get_current_user_carol :
  (get_current_user Sample.sign Sample.str Sample.int_of_str Sample.settings Sample.carol_token
                    Sample.db Sample.soon).1
  = Raise (http_401 "404: User not found").
Proof. by_running. Qed.

Example get_current_user_revoked :
  (get_current_user Sample.sign Sample.str Sample.int_of_str Sample.settings Sample.access_token
                    Sample.db Sample.soon_revoked).1
  = Raise (http_401 "401: Token has been revoked").
Proof. by_running. Qed.

Lemma verify_password_unidentified_witness :
  bcrypt_identify "not-a-hash" = false ∧
  verify_password Sample.no_match "hunter2" "not-a-hash"
  = Raise (UnknownHashError "hash could not be identified").
Proof.
  assert (H : bcrypt_identify "not-a-hash" = false) by reflexivity.
  split; [exact H|].
  exact (verify_password_unidentified Sample.no_match "hunter2" "not-a-hash" H).
Defined.

(** C7, as stated, fails: on a string that is no bcrypt hash at all
    [verify_password] raises, even with a handler that would answer
    false to everything. *)
Lemma verify_password_malformed_raises :
  verify_password Sample.no_match "hunter2" "not-a-hash" ≠ Return false.
Proof. vm_compute. discriminate. Qed.

(** C8 fails on the code for a zero time-to-live: [timedelta(0)] and [0]
    are falsy, so both [create_token] and [create_access_token] take the
    branch of the absent argument and the token expires thirty minutes
    (the configured default) after issuance instead of at issuance. *)
Theorem zero_ttl_falls_back_to_default :
  Sample.zero_issue.1 = Return Sample.zero_token ∧
  claim_of Sample.zero_token "exp" = Some (JInt 1700001800) ∧
  Sample.helper_zero_issue.1 = Return Sample.helper_zero_token ∧
  claim_of Sample.helper_zero_token "exp" = Some (JInt 1700001800) ∧
  timegm (now_of Sample.world + 0) = 1700000000.
Proof. repeat split; by_running. Qed.

(** A supplied time-to-live of a fifth of a second is honoured. *)
Example short_ttl_honoured :
  Sample.short_issue.1 = Return Sample.short_token ∧
  claim_of Sample.short_token "exp"
  = Some (JInt (timegm (now_of Sample.world + 200000))).
Proof. split; by_running. Qed.

Lemma exp_after_iat_witness :
  Sample.access_issue = (Return Sample.access_token, Sample.access_issue.2) ∧
  now_of (tick Sample.world) - now_of Sample.world + 1000000
  ≤ effective_ttl Sample.settings ACCESS None ∧
  ∃ exp iat,
    claim_of Sample.access_token "exp" = Some (JInt exp) ∧
    claim_of Sample.access_token "iat" = Some (JInt iat) ∧
    iat < exp.
Proof.
  assert (H : Sample.access_issue
              = (Return Sample.access_token, Sample.access_issue.2))
    by issued.
  assert (Httl : now_of (tick Sample.world) - now_of Sample.world + 1000000
                 ≤ effective_ttl Sample.settings ACCESS None)
    by (vm_compute; discriminate).
  split; [exact H|]. split; [exact Httl|].
  exact (exp_after_iat Sample.sign Sample.str Sample.settings (inl "alice-id")
           ACCESS None Sample.world Sample.access_token Sample.access_issue.2
           H Httl).
Defined.

(** C9, as stated, fails: a negative [expires_delta] puts [exp] before
    [iat], and one shorter than a second can leave them equal. *)
Lemma exp_not_after_iat :
  Sample.negative_issue.1 = Return Sample.negative_token ∧
  claim_of Sample.negative_token "exp" = Some (JInt 1699999995) ∧
  claim_of Sample.negative_token "iat" = Some (JInt 1700000000) ∧
  Sample.short_issue.1 = Return Sample.short_token ∧
  claim_of Sample.short_token "exp" = Some (JInt 1700000000) ∧
  claim_of Sample.short_token "iat" = Some (JInt 1700000000) ∧
  ¬ 1700000000 < 1699999995.
Proof. repeat split; try by_running. lia. Qed.

Lemma decode_token_missing_jti_witness :
  Sample.helper_issue.1 = Return Sample.helper_token ∧
  signature_valid Sample.sign Sample.helper_token
                  (JWT_SECRET_KEY Sample.shared_settings) = true ∧
  expired_at Sample.helper_token Sample.soon = false ∧
  claim_of Sample.helper_token "jti" = None ∧
  decode_token Sample.sign Sample.int_of_str Sample.shared_settings Sample.helper_token ACCESS
               true Sample.soon
  = (Raise (KeyError "jti"), tick Sample.soon).
Proof.
  split; [by_running|]. split; [by_running|]. split; [by_running|].
  split; [by_running|].
  apply (decode_token_missing_jti Sample.sign Sample.int_of_str Sample.shared_settings
           Sample.helper_token ACCESS true Sample.soon
           (Sample.payload_of Sample.helper_token) (tick Sample.soon)).
  - set (r := jwt_decode _ _ _ _ _ _ _).
    assert (H1 : r.1 = Return (Sample.payload_of Sample.helper_token))
      by by_running.
    assert (H2 : r.2 = tick Sample.soon) by reflexivity.
    rewrite (issue_eta r _ H1), H2. reflexivity.
  - by_running.
  - by_running.
Defined.

Ltac run_monad :=
  cbv [mbind M_bind bind ret raise try_except datetime_now token_hex
       is_blacklisted subscript utcnow_seconds] in *.

Section CodecMore.

Variable jws_sign : string -> string -> gmap string json -> option string.
Variable exn_str : exn -> string.
Variable int_of_str : string -> option Z.
Variable settings : Settings.

Lemma clock_advanced_refl w : clock_advanced w w.
Proof. unfold clock_advanced. auto 10. Qed.

Lemma clock_advanced_tick w : clock_advanced w (tick w).
Proof. unfold clock_advanced. cbn. auto 10. Qed.

Lemma clock_advanced_tick2 w : clock_advanced w (tick (tick w)).
Proof. unfold clock_advanced. cbn. auto 10. Qed.

(** The claim checks one by one: what each leaves of the state and what
    its acceptance means. *)
Lemma validate_iat_run claims w :
  ∃ o, validate_iat int_of_str claims w = (o, w).
Proof.
  unfold validate_iat. run_monad.
  destruct (claims !! "iat") as [v|]; [|eauto].
  destruct (builtin_int int_of_str v) as [n|[]]; eauto.
Qed.

Lemma validate_nbf_run claims w :
  ∃ o w', validate_nbf int_of_str claims w = (o, w') ∧ (w' = w ∨ w' = tick w).
Proof.
  unfold validate_nbf. run_monad.
  destruct (claims !! "nbf") as [v|]; [|eauto].
  destruct (builtin_int int_of_str v) as [n|[]]; eauto.
  destruct (_ <? _); eauto.
Qed.

Lemma validate_exp_run claims w :
  ∃ o w', validate_exp int_of_str claims w = (o, w') ∧
    (w' = w ∨ w' = tick w) ∧
    (∀ u, o = Return u → ∀ v exp, claims !! "exp" = Some v →
       builtin_int int_of_str v = Return exp → timegm (now_of w) ≤ exp).
Proof.
  unfold validate_exp. run_monad.
  destruct (claims !! "exp") as [v|];
    [|eexists _, _; split; [reflexivity|]; split; [auto|]; discriminate].
  destruct (builtin_int int_of_str v) as [n|[]] eqn:Hb;
    try (eexists _, _; split; [reflexivity|]; split; [auto|];
         intros u Hu; discriminate Hu).
  destruct (n <? timegm (now_of w)) eqn:Hlt;
    (eexists _, _; split; [reflexivity|]; split; [auto|]);
    [intros u Hu; discriminate Hu|].
  intros _ _ v' exp [= <-] Hi. rewrite Hb in Hi. injection Hi as <-.
  by apply Z.ltb_ge.
Qed.

Lemma validate_absent_run (k : string) (e : exn)
    (claims : gmap string json) w :
  ∃ o, (match claims !! k with
        | None => ret tt
        | Some _ => raise e
        end : M unit) w = (o, w) ∧
       (∀ u, o = Return u → claims !! k = None).
Proof.
  run_monad. destruct (claims !! k); eexists; (split; [reflexivity|]);
    [discriminate|reflexivity].
Qed.

Lemma validate_str_run (k : string) (e : exn)
    (claims : gmap string json) w :
  ∃ o, (match claims !! k with
        | None => ret tt
        | Some v => if is_str v then ret tt else raise e
        end : M unit) w = (o, w) ∧
       (∀ u, o = Return u → ∀ v, claims !! k = Some v → is_str v = true).
Proof.
  run_monad. destruct (claims !! k) as [v|];
    [destruct (is_str v) eqn:Hs|]; eexists; (split; [reflexivity|]);
    [by intros _ _ ? [= <-]|discriminate|discriminate].
Qed.

(** The library's claim validation when it accepts: the clock has been
    read at most twice and nothing else touched, [sub] and [jti] are
    strings, [aud] and [at_hash] absent, and [exp] has not passed. *)
Lemma validate_claims_run claims ve w :
  ∃ o w', validate_claims int_of_str claims ve w = (o, w') ∧
    clock_advanced w w' ∧
    (∀ u, o = Return u →
        (∀ v, claims !! "jti" = Some v → is_str v = true) ∧
        (∀ v, claims !! "sub" = Some v → is_str v = true) ∧
        claims !! "aud" = None ∧ claims !! "at_hash" = None ∧
        (ve = true → ∀ v exp, claims !! "exp" = Some v →
           builtin_int int_of_str v = Return exp →
           timegm (now_of w) ≤ exp ∨ timegm (now_of (tick w)) ≤ exp)).
Proof.
  assert (Hfail : ∀ (e : exn) w1, clock_advanced w w1 →
            ∃ o w', (Raise e : outcome unit, w1) = (o, w') ∧
              clock_advanced w w' ∧
              (∀ u, o = Return u →
                 (∀ v, claims !! "jti" = Some v → is_str v = true) ∧
                 (∀ v, claims !! "sub" = Some v → is_str v = true) ∧
                 claims !! "aud" = None ∧ claims !! "at_hash" = None ∧
                 (ve = true → ∀ v exp, claims !! "exp" = Some v →
                    builtin_int int_of_str v = Return exp →
                    timegm (now_of w) ≤ exp ∨
                    timegm (now_of (tick w)) ≤ exp))).
  { intros e w1 Hw1. eexists _, _. split; [reflexivity|].
    split; [exact Hw1|discriminate]. }
  unfold validate_claims.
  unfold mbind, M_bind, bind.
  destruct (validate_iat_run claims w) as [o1 H1]. rewrite H1.
  destruct o1 as [[]|e]; [|by apply Hfail, clock_advanced_refl].
  destruct (validate_nbf_run claims w) as (o2 & w2 & H2 & Hw2). rewrite H2.
  assert (Hadv2 : clock_advanced w w2)
    by (destruct Hw2 as [->| ->];
        [apply clock_advanced_refl|apply clock_advanced_tick]).
  destruct o2 as [[]|e]; [|by apply Hfail].
  assert (Hexp : ∃ o3 w3,
            (if ve then validate_exp int_of_str claims else ret tt) w2
            = (o3, w3) ∧ clock_advanced w w3 ∧
            (∀ u, o3 = Return u → ve = true → ∀ v exp,
               claims !! "exp" = Some v →
               builtin_int int_of_str v = Return exp →
               timegm (now_of w) ≤ exp ∨ timegm (now_of (tick w)) ≤ exp)).
  { destruct ve.
    - destruct (validate_exp_run claims w2) as (o3 & w3 & H3 & Hw3 & He).
      exists o3, w3. split; [exact H3|]. split.
      + destruct Hw2 as [->| ->], Hw3 as [->| ->];
          first [apply clock_advanced_refl | apply clock_advanced_tick
                | apply clock_advanced_tick2].
      + intros u Hu _ v exp Hv Hi. specialize (He u Hu v exp Hv Hi).
        destruct Hw2 as [->| ->]; auto.
    - eexists _, _. split; [reflexivity|]. split; [exact Hadv2|].
      intros; discriminate. }
  destruct Hexp as (o3 & w3 & H3 & Hadv3 & He). rewrite H3.
  destruct o3 as [[]|e]; [|by apply Hfail].
  destruct (validate_absent_run "aud" (JWTClaimsError "Invalid audience")
              claims w3) as (o4 & H4 & Haud).
  unfold validate_aud. rewrite H4.
  destruct o4 as [[]|e]; [|by apply Hfail].
  destruct (validate_str_run "sub" (JWTClaimsError "Subject must be a string.")
              claims w3) as (o5 & H5 & Hsub).
  unfold validate_sub. rewrite H5.
  destruct o5 as [[]|e]; [|by apply Hfail].
  destruct (validate_str_run "jti" (JWTClaimsError "JWT ID must be a string.")
              claims w3) as (o6 & H6 & Hjti).
  unfold validate_jti. rewrite H6.
  destruct o6 as [[]|e]; [|by apply Hfail].
  destruct (validate_absent_run "at_hash"
              (JWTClaimsError "No access_token provided to compare against at_hash claim.")
              claims w3) as (o7 & H7 & Hat).
  unfold validate_at_hash. rewrite H7.
  exists o7, w3. split; [reflexivity|]. split; [exact Hadv3|].
  intros u ->. repeat split; eauto.
Qed.

(** The library's [jwt.decode] when it returns: the token is in compact
    form, signed under the key with an allowed algorithm, and its claims
    passed the validation. *)
Lemma jwt_decode_run tok key algs ve w payload w' :
  jwt_decode jws_sign int_of_str tok key algs ve w = (Return payload, w') →
  clock_advanced w w' ∧
  ∃ alg sig, tok = Compact alg payload sig ∧ alg ∈ algs ∧
    jws_sign alg key payload = Some sig ∧
    (∀ v, payload !! "jti" = Some v → is_str v = true) ∧
    (∀ v, payload !! "sub" = Some v → is_str v = true) ∧
    (ve = true → ∀ v exp, payload !! "exp" = Some v →
       builtin_int int_of_str v = Return exp →
       timegm (now_of w) ≤ exp ∨ timegm (now_of (tick w)) ≤ exp).
Proof.
  destruct tok as [s|alg p sig|e]; cbn [jwt_decode]; run_monad;
    [discriminate| |discriminate].
  case_bool_decide as Halg; [|discriminate].
  case_bool_decide as Hsig; [|discriminate].
  destruct (validate_claims_run p ve w) as (o & w1 & Hv & Hadv & Ho).
  rewrite Hv. destruct o as [[]|e]; [|discriminate].
  intros [= <- <-]. split; [exact Hadv|].
  destruct (Ho _ eq_refl) as (Hjti & Hsub & _ & _ & Hexp).
  exists alg, sig. auto 10.
Qed.

(** What [decode_token] does with any result of the library. *)
Lemma decode_token_run tok ty ve w :
  decode_token jws_sign int_of_str settings tok ty ve w =
  match jwt_decode jws_sign int_of_str tok (secret_for settings ty)
                   [ALGORITHM settings] ve w with
  | (Return payload, w') =>
      if bool_decide (payload !! "type" ≠ Some (JStr (value ty))) then
        (Raise (http_401 "Invalid token type"), w')
      else match payload !! "jti" with
           | None => (Raise (KeyError "jti"), w')
           | Some jti =>
               (if in_store jti w'
                then Raise (http_401 "Token has been revoked")
                else Return payload, queried jti w')
           end
  | (Raise e, w') =>
      (Raise match e with
             | ExpiredSignatureError _ => http_401 "Token has expired"
             | JWTClaimsError _ | JWTError _ =>
                 http_401 "Could not validate credentials"
             | _ => e
             end, w')
  end.
Proof.
  destruct (jwt_decode jws_sign int_of_str tok (secret_for settings ty)
              [ALGORITHM settings] ve w) as [[payload|e] w'] eqn:Hd.
  - exact (decode_token_accepted _ _ _ _ _ _ _ _ _ Hd).
  - exact (decode_token_refused _ _ _ _ _ _ _ _ _ Hd).
Qed.

(** X1: a payload returned by [decode_token] comes from a token signed
    under the expected type's secret with the configured algorithm, has
    the expected [type] claim and a string [jti] that is not in the
    revocation store, and, when expiry is verified, an [exp] whose
    value as [int] takes it, a numeric string included, is not before
    the second the clock showed.  Tokens here are those whose claims
    are JSON null, booleans, integers and strings. *)
Theorem decode_token_sound tok ty ve w payload w' :
  decode_token jws_sign int_of_str settings tok ty ve w = (Return payload, w') →
  ∃ sig jti,
    tok = Compact (ALGORITHM settings) payload sig ∧
    jws_sign (ALGORITHM settings) (secret_for settings ty) payload = Some sig ∧
    payload !! "type" = Some (JStr (value ty)) ∧
    payload !! "jti" = Some (JStr jti) ∧
    (jti ∉ blacklist w) ∧
    store_lookups w' = JStr jti :: store_lookups w ∧
    (ve = true → ∀ v exp, payload !! "exp" = Some v →
       builtin_int int_of_str v = Return exp →
       timegm (now_of w) ≤ exp ∨ timegm (now_of (tick w)) ≤ exp).
Proof.
  intros H. rewrite decode_token_run in H.
  destruct (jwt_decode jws_sign int_of_str tok (secret_for settings ty)
              [ALGORITHM settings] ve w) as [[p|e] w1] eqn:Hd;
    [|discriminate H].
  case_bool_decide as Hty; [discriminate H|].
  destruct (p !! "jti") as [jti|] eqn:Hjti; [|discriminate H].
  destruct (in_store jti w1) eqn:Hin; [discriminate H|].
  injection H as <- <-.
  apply jwt_decode_run in Hd
    as (Hadv & alg & sig & -> & Halg & Hsig & Hstr & _ & Hexp).
  apply list_elem_of_singleton in Halg as ->.
  destruct Hadv as (_ & _ & _ & Hbl & Hlk & _).
  specialize (Hstr _ Hjti). destruct jti as [| | |j]; try discriminate Hstr.
  exists sig, j. split; [reflexivity|]. split; [exact Hsig|].
  split.
  { destruct (decide (p !! "type" = Some (JStr (value ty)))); [done|].
    by destruct Hty. }
  split; [exact Hjti|]. split.
  { cbn in Hin. apply bool_decide_eq_false_1 in Hin. by rewrite <-Hbl. }
  split; [cbn; by rewrite Hlk|].
  exact Hexp.
Qed.

(** X2: a token in compact form that is not signed under the expected
    type's secret, and a string the library's loader refuses with its
    own error, are turned away with "Could not validate credentials"
    before the clock is read or the store asked. *)
Theorem decode_token_unsigned tok ty ve w :
  signature_valid jws_sign tok (secret_for settings ty) = false →
  (∀ e, tok ≠ Unloadable e) →
  decode_token jws_sign int_of_str settings tok ty ve w
  = (Raise (http_401 "Could not validate credentials"), w).
Proof.
  intros Hsig Hload. rewrite decode_token_run.
  destruct tok as [s|alg payload sig|e]; cbn [jwt_decode]; run_monad.
  - reflexivity.
  - cbn in Hsig. apply bool_decide_eq_false_1 in Hsig.
    destruct (bool_decide (alg ∈ [ALGORITHM settings])); [|reflexivity].
    by rewrite bool_decide_eq_false_2.
  - by destruct (Hload e).
Qed.

(** X3: with [verify_exp] off, an issued token that is not revoked is
    accepted under its own type however long ago it expired, and the
    clock is not read. *)
Theorem decode_token_ignoring_expiry user_id ty d w0 tok w1 w :
  create_token jws_sign exn_str settings user_id ty d w0 = (Return tok, w1) →
  revoked_in tok w = false →
  ∃ payload w',
    decode_token jws_sign int_of_str settings tok ty false w = (Return payload, w') ∧
    payload !! "sub" = Some (JStr (user_id_str user_id)) ∧
    clock_reads w' = clock_reads w.
Proof.
  intros H Hrev.
  destruct (decode_issued _ _ int_of_str _ _ _ _ _ _ _ false w H)
    as (jti & payload & _ & Hsub & Hd).
  exists payload, (queried jti w). rewrite Hd, Hrev. auto.
Qed.

(** X4: without [expires_delta], the [exp] of an issued token is the
    second of issuance plus sixty seconds per configured minute for an
    access token, plus 86400 seconds per configured day for a refresh
    token. *)
Theorem default_lifetime user_id ty w0 tok w1 :
  create_token jws_sign exn_str settings user_id ty None w0 = (Return tok, w1) →
  claim_of tok "exp"
  = Some (JInt (timegm (now_of w0) +
                match ty with
                | ACCESS => 60 * ACCESS_TOKEN_EXPIRE_MINUTES settings
                | REFRESH => 86400 * REFRESH_TOKEN_EXPIRE_DAYS settings
                end)).
Proof.
  intros H. apply issued_token_claims in H as (jti & _ & Hexp & _).
  rewrite Hexp. do 2 f_equal. unfold timegm, effective_ttl, default_ttl.
  destruct ty.
  - replace (now_of w0 + ACCESS_TOKEN_EXPIRE_MINUTES settings * 60000000)
      with (now_of w0 + 60 * ACCESS_TOKEN_EXPIRE_MINUTES settings * 1000000)
      by lia.
    apply Z.div_add. lia.
  - replace (now_of w0 + REFRESH_TOKEN_EXPIRE_DAYS settings * 86400000000)
      with (now_of w0 + 86400 * REFRESH_TOKEN_EXPIRE_DAYS settings * 1000000)
      by lia.
    apply Z.div_add. lia.
Qed.

(** X5: the only errors [create_token] lets out are the 500 it wraps a
    failure of [jwt.encode] in, its detail "Could not create token: "
    followed by the text of that failure, and the [OverflowError] of a
    date out of range. *)
Theorem create_token_failures user_id ty d w0 e :
  (create_token jws_sign exn_str settings user_id ty d w0).1 = Raise e →
  (∃ msg, e = OverflowError msg) ∨
  (∃ cause, e = HTTPException HTTP_500_INTERNAL_SERVER_ERROR
                  ("Could not create token: " +:+ exn_str cause) []).
Proof.
  unfold create_token.
  unfold mbind at 1, M_bind at 1, bind at 1.
  destruct (encode_issued (user_id_str user_id) ty
              (now_of w0 + effective_ttl settings ty d) (now_of (tick w0))
              (entropy w0 (entropy_draws w0))) as [Hs Hp].
  assert (Hx : ∀ w, (∃ e' , (match d with
      | Some d => if truthy_int d then now ← datetime_now; datetime_add now d
                  else default_expire settings ty
      | None => default_expire settings ty
      end) w = (Raise (OverflowError e'), tick w)) ∨
     (match d with
      | Some d => if truthy_int d then now ← datetime_now; datetime_add now d
                  else default_expire settings ty
      | None => default_expire settings ty
      end) w = (Return (now_of w + effective_ttl settings ty d), tick w)).
  { intros w. unfold effective_ttl, default_expire, default_ttl,
      timedelta_minutes, timedelta_days, timedelta, datetime_add.
    run_monad.
    destruct d as [d|]; [destruct (truthy_int d)|]; try destruct ty;
      repeat (match goal with
              | |- context [if ?b then _ else _] => destruct b
              end); eauto. }
  destruct (Hx w0) as [[msg He]|He]; rewrite He.
  { cbn. intros [= <-]. eauto. }
  unfold jwt_encode. run_monad. fold (user_id_str user_id).
  change (entropy (tick (tick w0)) (entropy_draws (tick (tick w0))))
    with (entropy w0 (entropy_draws w0)).
  destruct (bool_decide (ALGORITHM settings ∈ SUPPORTED));
    [|cbn; intros [= <-]; eauto].
  rewrite decide_True by exact Hs.
  destruct (jws_sign _ _ _); cbn; [discriminate|].
  intros [= <-]. eauto.
Qed.

(** X6: [create_token] does return a token, having read the clock twice
    and drawn one identifier, whenever the algorithm is one the library
    supports, the key signs the payload, and the configured default and
    the expiry date are in the range of [timedelta] and [datetime]. *)
Theorem create_token_succeeds user_id ty d w0 :
  ALGORITHM settings ∈ SUPPORTED →
  is_Some (jws_sign (ALGORITHM settings) (secret_for settings ty)
             (issued_payload (user_id_str user_id) ty
                (now_of w0 + effective_ttl settings ty d) (now_of (tick w0))
                (entropy w0 (entropy_draws w0)))) →
  timedelta_min ≤ default_ttl settings ty ≤ timedelta_max →
  datetime_min ≤ now_of w0 + effective_ttl settings ty d ≤ datetime_max →
  ∃ tok,
    create_token jws_sign exn_str settings user_id ty d w0
    = (Return tok, drawn (tick (tick w0))).
Proof.
  intros Halg [sig Hsig] Htd Hdt.
  unfold create_token.
  unfold mbind at 1, M_bind at 1, bind at 1.
  destruct (encode_issued (user_id_str user_id) ty
              (now_of w0 + effective_ttl settings ty d) (now_of (tick w0))
              (entropy w0 (entropy_draws w0))) as [Hs Hp].
  assert (He : (match d with
      | Some d => if truthy_int d then now ← datetime_now; datetime_add now d
                  else default_expire settings ty
      | None => default_expire settings ty
      end) w0 = (Return (now_of w0 + effective_ttl settings ty d), tick w0)).
  { revert Htd Hdt.
    unfold effective_ttl, default_expire, default_ttl,
      timedelta_minutes, timedelta_days, timedelta, datetime_add.
    run_monad. intros Htd Hdt.
    assert (Hb : ∀ a b c : Z, a ≤ b ≤ c → (a <=? b) && (b <=? c) = true).
    { intros a b c [? ?]. apply andb_true_intro.
      split; by apply Z.leb_le. }
    destruct d as [d|]; [destruct (truthy_int d)|]; try destruct ty;
      rewrite ?(Hb _ _ _ Htd), ?(Hb _ _ _ Hdt); reflexivity. }
  rewrite He. unfold jwt_encode. run_monad. fold (user_id_str user_id).
  change (entropy (tick (tick w0)) (entropy_draws (tick (tick w0))))
    with (entropy w0 (entropy_draws w0)).
  rewrite bool_decide_eq_true_2 by exact Halg.
  rewrite decide_True by exact Hs.
  rewrite Hp, Hsig. eauto.
Qed.

(** X7: the verdict on an issued token depends on the state only through
    the clock reading and through whether the token's own [jti] is in
    the revocation store; what else the store holds does not matter. *)
Theorem verdict_depends_on_own_jti user_id ty d w0 tok w1 ve wa wb :
  create_token jws_sign exn_str settings user_id ty d w0 = (Return tok, w1) →
  now_of wa = now_of wb →
  revoked_in tok wa = revoked_in tok wb →
  (decode_token jws_sign int_of_str settings tok ty ve wa).1
  = (decode_token jws_sign int_of_str settings tok ty ve wb).1.
Proof.
  intros H Hnow Hrev.
  apply create_token_inv in H as (sig & -> & Hsig & _).
  rewrite !(decode_issued_same _ _ _ _ _ _ _ _ _ _ _ Hsig).
  unfold revoked_in, claim_of in Hrev.
  destruct (issued_payload_lookup (user_id_str user_id) ty
              (now_of w0 + effective_ttl settings ty d) (now_of (tick w0))
              (entropy w0 (entropy_draws w0))) as (_ & _ & _ & _ & Hjti & _).
  rewrite Hjti in Hrev. cbn [in_store] in Hrev.
  rewrite Hnow, Hrev.
  destruct (ve && _); reflexivity.
Qed.

(** X8: a token issued for one type is never accepted as the other, a
    refresh token presented as an access token no more than the
    reverse. *)
Theorem cross_type_never_accepted user_id ty ty' d w0 tok w1 ve w :
  create_token jws_sign exn_str settings user_id ty d w0 = (Return tok, w1) →
  ty' ≠ ty →
  ∃ detail w',
    decode_token jws_sign int_of_str settings tok ty' ve w = (Raise (http_401 detail), w').
Proof.
  intros H Hne. apply create_token_inv in H as (sig & -> & _ & _).
  rewrite (decode_issued_other jws_sign int_of_str settings _ _ _ _ _ _ sig ve w Hne).
  case_bool_decide; [destruct (ve && _)|]; eauto.
Qed.

(** X9: [get_current_user] raises nothing but a 401, and a user it
    returns is an active record of the database whose id is the [sub]
    of a payload [decode_token] accepted as an access token. *)
Theorem get_current_user_outcomes tok db w :
  match (get_current_user jws_sign exn_str int_of_str settings tok db w).1 with
  | Return u =>
      is_active u = true ∧ u ∈ db ∧
      ∃ payload w',
        decode_token jws_sign int_of_str settings tok ACCESS true w = (Return payload, w') ∧
        payload !! "sub" = Some (JStr (id u))
  | Raise e => ∃ detail, e = http_401 detail
  end.
Proof.
  unfold get_current_user. run_monad.
  destruct (decode_token jws_sign int_of_str settings tok ACCESS true w)
    as [[payload|e] w']; cbn; [|eauto].
  destruct (payload !! "sub") as [user_id|] eqn:Hsub; cbn; [|eauto].
  destruct (query_first db user_id) as [u|] eqn:Hq; cbn; [|eauto].
  destruct (is_active u) eqn:Hact; cbn; [|eauto].
  unfold query_first in Hq. apply find_some in Hq as [Hin Hid].
  apply bool_decide_eq_true_1 in Hid. subst user_id.
  split; [exact Hact|]. split; [by apply list_elem_of_In|]. eauto.
Qed.


(** What a token returned by the simple helper is. *)
Lemma create_access_token_inv data m w0 tok w1 :
  create_access_token jws_sign settings data m w0 = (Return tok, w1) →
  let to_encode : gmap string pyval :=
    <["iat" := PDatetime (now_of (tick w0))]>
      (<["exp" := PDatetime (now_of w0 + helper_ttl settings m)]> data) in
  ∃ sig,
    tok = Compact (ALGORITHM settings) (map_imap claim_to_json to_encode) sig ∧
    jws_sign (ALGORITHM settings) (SECRET_KEY settings)
             (map_imap claim_to_json to_encode) = Some sig ∧
    w1 = tick (tick w0).
Proof.
  intros H to_encode. unfold create_access_token in H.
  unfold mbind at 1, M_bind at 1, bind at 1 in H.
  assert (Hx : ∀ w, (∃ e, (match m with
      | Some m =>
          if truthy_int m then
            now ← datetime_now; d ← timedelta_minutes m; datetime_add now d
          else
            now ← datetime_now;
            d ← timedelta_minutes (ACCESS_TOKEN_EXPIRE_MINUTES settings);
            datetime_add now d
      | None =>
          now ← datetime_now;
          d ← timedelta_minutes (ACCESS_TOKEN_EXPIRE_MINUTES settings);
          datetime_add now d
      end) w = (Raise e, tick w)) ∨
     (match m with
      | Some m =>
          if truthy_int m then
            now ← datetime_now; d ← timedelta_minutes m; datetime_add now d
          else
            now ← datetime_now;
            d ← timedelta_minutes (ACCESS_TOKEN_EXPIRE_MINUTES settings);
            datetime_add now d
      | None =>
          now ← datetime_now;
          d ← timedelta_minutes (ACCESS_TOKEN_EXPIRE_MINUTES settings);
          datetime_add now d
      end) w = (Return (now_of w + helper_ttl settings m), tick w)).
  { intros w. unfold helper_ttl, timedelta_minutes, timedelta, datetime_add.
    run_monad.
    destruct m as [m|]; [destruct (truthy_int m)|];
      repeat (match goal with
              | |- context [if ?b then _ else _] => destruct b
              end); eauto. }
  destruct (Hx w0) as [[e He]|He]; rewrite He in H; [discriminate H|].
  unfold jwt_encode in H. run_monad. fold to_encode in H.
  destruct (bool_decide (ALGORITHM settings ∈ SUPPORTED)); [|discriminate H].
  destruct (decide (serialisable to_encode)); [|discriminate H].
  destruct (jws_sign (ALGORITHM settings) (SECRET_KEY settings)
              (map_imap claim_to_json to_encode)) as [sig|]; [|discriminate H].
  injection H as <- <-. eauto.
Qed.

(** Claim validation on a payload with integer [iat] and [exp] and
    nothing else the library objects to. *)
Lemma validate_claims_plain p iat exp w :
  p !! "iat" = Some (JInt iat) → p !! "exp" = Some (JInt exp) →
  p !! "nbf" = None → p !! "aud" = None → p !! "at_hash" = None →
  (∀ v, p !! "sub" = Some v → is_str v = true) →
  (∀ v, p !! "jti" = Some v → is_str v = true) →
  validate_claims int_of_str p true w =
  (if exp <? timegm (now_of w)
   then Raise (ExpiredSignatureError "Signature has expired.")
   else Return tt, tick w).
Proof.
  intros Hiat Hexp Hnbf Haud Hat Hsub Hjti.
  unfold validate_claims, validate_iat, validate_nbf, validate_exp,
    validate_aud, validate_sub, validate_jti, validate_at_hash.
  rewrite Hiat, Hexp, Hnbf, Haud, Hat. run_monad. cbn [builtin_int].
  destruct (exp <? timegm (now_of w)); [reflexivity|].
  destruct (p !! "sub") as [v|]; [rewrite (Hsub v eq_refl)|];
    (destruct (p !! "jti") as [v'|]; [rewrite (Hjti v' eq_refl)|]);
    reflexivity.
Qed.

(** X10: what the simple helper issues, [decode_access_token] gives back.
    For claims the library does not object to and a token not yet
    expired, the payload returned holds every claim of [data] other
    than [exp] and [iat], and those two as the helper set them, whatever
    [data] had under these names. *)
Theorem helper_round_trip data m w0 tok w1 w :
  create_access_token jws_sign settings data m w0 = (Return tok, w1) →
  plain_claims data →
  expired_at tok w = false →
  ∃ payload,
    decode_access_token jws_sign exn_str int_of_str settings tok w
    = (Return payload, tick w) ∧
    (∀ k j, k ≠ "exp" → k ≠ "iat" → data !! k = Some (PJson j) →
       payload !! k = Some j) ∧
    payload !! "exp"
    = Some (JInt (timegm (now_of w0 + helper_ttl settings m))) ∧
    payload !! "iat" = Some (JInt (timegm (now_of (tick w0)))).
Proof.
  intros H (Hnbf & Haud & Hat & Hsub & Hjti) Hexp.
  apply create_access_token_inv in H as (sig & -> & Hsig & _).
  set (to_encode := <["iat" := _]> (<["exp" := _]> data)) in *.
  set (p := map_imap claim_to_json to_encode) in *.
  assert (Hl : ∀ k, p !! k = to_encode !! k ≫= claim_to_json k)
    by (intros k; apply map_lookup_imap).
  assert (Hk : ∀ k, k ≠ "exp" → k ≠ "iat" → to_encode !! k = data !! k).
  { intros k H1 H2. unfold to_encode.
    rewrite lookup_insert_ne by congruence.
    by rewrite lookup_insert_ne by congruence. }
  assert (Hpiat : p !! "iat" = Some (JInt (timegm (now_of (tick w0))))).
  { rewrite Hl. unfold to_encode. by rewrite lookup_insert_eq. }
  assert (Hpexp : p !! "exp"
                  = Some (JInt (timegm (now_of w0 + helper_ttl settings m)))).
  { rewrite Hl. unfold to_encode. rewrite lookup_insert_ne by discriminate.
    by rewrite lookup_insert_eq. }
  assert (Hstr : ∀ k, k ≠ "exp" → k ≠ "iat" →
            (∀ v, data !! k = Some v → ∃ s, v = PJson (JStr s)) →
            ∀ v, p !! k = Some v → is_str v = true).
  { intros k H1 H2 Hd v. rewrite Hl, (Hk k H1 H2).
    destruct (data !! k) as [v0|]; [|discriminate].
    destruct (Hd v0 eq_refl) as [s ->]. cbn. by intros [= <-]. }
  pose proof (validate_claims_plain p _ _ w Hpiat Hpexp) as Hv.
  rewrite !Hl, !Hk, Hnbf, Haud, Hat in Hv by discriminate.
  specialize (Hv eq_refl eq_refl eq_refl).
  rewrite <-!(Hk "sub"), <-!(Hk "jti"), <-!Hl in Hv by discriminate.
  specialize (Hv (Hstr "sub" ltac:(discriminate) ltac:(discriminate) Hsub)
                 (Hstr "jti" ltac:(discriminate) ltac:(discriminate) Hjti)).
  unfold expired_at in Hexp. cbn [claim_of] in Hexp.
  rewrite Hpexp in Hexp. cbn [mbind option_bind claim_seconds] in Hexp.
  rewrite Hexp in Hv.
  exists p. split.
  - unfold decode_access_token. run_monad.
    rewrite (jwt_decode_signed jws_sign int_of_str _ _ _ _ true w Hsig), Hv.
    reflexivity.
  - split; [|auto]. intros k j H1 H2 Hd.
    rewrite Hl, (Hk k H1 H2), Hd. reflexivity.
Qed.

(** X11: a payload returned by [decode_access_token] comes from a token
    signed under [SECRET_KEY] with the configured algorithm whose [exp],
    by the value [int] takes it for, a numeric string included, is not
    before the second the clock showed; the revocation store is neither
    asked nor changed.  Tokens here are those whose claims are JSON
    null, booleans, integers and strings. *)
Theorem decode_access_token_sound tok w payload w' :
  decode_access_token jws_sign exn_str int_of_str settings tok w
  = (Return payload, w') →
  (∃ sig, tok = Compact (ALGORITHM settings) payload sig ∧
          jws_sign (ALGORITHM settings) (SECRET_KEY settings) payload
          = Some sig) ∧
  (∀ v exp, payload !! "exp" = Some v →
     builtin_int int_of_str v = Return exp →
     timegm (now_of w) ≤ exp ∨ timegm (now_of (tick w)) ≤ exp) ∧
  blacklist w' = blacklist w ∧ store_lookups w' = store_lookups w.
Proof.
  intros H. unfold decode_access_token in H. run_monad.
  destruct (jwt_decode jws_sign int_of_str tok (SECRET_KEY settings)
              [ALGORITHM settings] true w) as [[p|e] w1] eqn:Hd;
    [|destruct e; discriminate H].
  injection H as <- <-.
  apply jwt_decode_run in Hd
    as (Hadv & alg & sig & -> & Halg & Hsig & _ & _ & Hexp).
  destruct Hadv as (_ & _ & _ & Hbl & Hlk & _).
  apply list_elem_of_singleton in Halg as ->.
  split; [eauto|]. split; [|auto].
  exact (Hexp eq_refl).
Qed.

(** X12: the simple decoder looks at neither the [type] claim nor the
    revocation store: where [SECRET_KEY] is also the secret of a token
    type, an unexpired token issued by [create_token] for that type is
    accepted by [decode_access_token] even when it has been revoked. *)
Theorem decode_access_token_ignores_revocation user_id ty d w0 tok w1 w :
  create_token jws_sign exn_str settings user_id ty d w0 = (Return tok, w1) →
  SECRET_KEY settings = secret_for settings ty →
  expired_at tok w = false →
  ∃ payload,
    decode_access_token jws_sign exn_str int_of_str settings tok w
    = (Return payload, tick w) ∧
    payload !! "sub" = Some (JStr (user_id_str user_id)) ∧
    payload !! "type" = Some (JStr (value ty)).
Proof.
  intros H Hkey Hexp.
  apply create_token_inv in H as (sig & -> & Hsig & _).
  set (p := issued_payload _ _ _ _ _) in *.
  destruct (issued_payload_lookup (user_id_str user_id) ty
              (now_of w0 + effective_ttl settings ty d) (now_of (tick w0))
              (entropy w0 (entropy_draws w0)))
    as (Hsub & Hty & Hpexp & _).
  fold p in Hsub, Hty, Hpexp.
  unfold expired_at in Hexp. cbn [claim_of] in Hexp.
  rewrite Hpexp in Hexp. cbn [mbind option_bind claim_seconds] in Hexp.
  exists p. split; [|auto].
  unfold decode_access_token. run_monad. rewrite Hkey.
  rewrite (jwt_decode_signed jws_sign int_of_str _ _ _ _ true w Hsig).
  unfold p. rewrite validate_claims_issued, Hexp. reflexivity.
Qed.

End CodecMore.

Section PasswordFacts.

Variables isupper islower isdigit : N -> bool.

(** X13: [validate_password_strength] returns exactly the passwords of at
    least eight characters with an uppercase letter, a lowercase letter
    and a digit among them, and returns them unchanged; anything else
    is refused with a [ValueError]. *)
Theorem validate_password_strength_spec (v : list N) :
  (validate_password_strength isupper islower isdigit v = Return v ↔
   (8 ≤ length v)%nat ∧ (∃ c, c ∈ v ∧ isupper c = true) ∧
   (∃ c, c ∈ v ∧ islower c = true) ∧ (∃ c, c ∈ v ∧ isdigit c = true)) ∧
  (∀ r, validate_password_strength isupper islower isdigit v = r →
        r = Return v ∨ ∃ msg, r = Raise (ValueError msg)).
Proof.
  assert (Hex : ∀ f, existsb f v = true ↔ ∃ c, c ∈ v ∧ f c = true).
  { intros f. rewrite existsb_exists. split; intros (c & Hc & Hf);
      exists c; (split; [by apply list_elem_of_In|exact Hf]). }
  unfold validate_password_strength. split.
  - rewrite <-!Hex.
    destruct (Nat.ltb_spec (length v) 8);
      [split; [discriminate|lia]|].
    destruct (existsb isupper v), (existsb islower v), (existsb isdigit v);
      cbn; split; try discriminate; try tauto; intros (_ & ? & ? & ?);
      discriminate.
  - intros r <-.
    destruct (length v <? 8)%nat; [eauto|].
    destruct (existsb isupper v); cbn; [|eauto].
    destruct (existsb islower v); cbn; [|eauto].
    destruct (existsb isdigit v); cbn; eauto.
Qed.

End PasswordFacts.

Section CalculationFacts.

Variable Body : Type.
Variable parse_uuid : string -> option UUID.

Implicit Types (db : list (Calculation Body)) (c : Calculation Body).

Lemma delete_first_spec (p : Calculation Body → bool) db c :
  List.find p db = Some c →
  ∃ l1 l2, db = (l1 ++ c :: l2)%list ∧ delete_first p db = (l1 ++ l2)%list ∧
           Forall (fun x => p x = false) l1 ∧ p c = true.
Proof.
  induction db as [|x db IH]; cbn; [discriminate|].
  destruct (p x) eqn:Hp.
  - intros [= ->]. exists [], db. auto.
  - intros H. destruct (IH H) as (l1 & l2 & -> & Hd & Hl & Hc).
    exists (x :: l1), l2. rewrite Hd. auto.
Qed.

Lemma get_calculation_inv s u db c :
  get_calculation parse_uuid s u db = Return c →
  c ∈ db ∧ parse_uuid s = Some (calc_id c) ∧ calc_user_id c = id u.
Proof.
  unfold get_calculation. destruct (parse_uuid s) as [cid|]; [|discriminate].
  destruct (find _ db) as [c'|] eqn:Hf; [|discriminate].
  intros [= ->]. apply find_some in Hf as [Hin Hp].
  unfold id_and_owner in Hp. apply andb_prop in Hp as [H1 H2].
  apply bool_decide_eq_true_1 in H1, H2.
  split; [by apply list_elem_of_In|]. by subst.
Qed.

(** X14: what [get_calculation] returns is a row of the table with the
    id asked for and owned by the current user. *)
Theorem get_calculation_owned s u db c :
  get_calculation parse_uuid s u db = Return c →
  c ∈ db ∧ parse_uuid s = Some (calc_id c) ∧ calc_user_id c = id u.
Proof. apply get_calculation_inv. Qed.

(** X15: a calculation of another user is answered like one that does
    not exist: when every row with the id asked for belongs to someone
    else, [get_calculation] raises the 404 and [delete_calculation]
    raises it too and leaves the table as it is. *)
Theorem foreign_calculation_not_found s u db cid :
  parse_uuid s = Some cid →
  (∀ c, c ∈ db → calc_id c = cid → calc_user_id c ≠ id u) →
  get_calculation parse_uuid s u db
  = Raise (HTTPException 404 "Calculation not found." []) ∧
  delete_calculation parse_uuid s u db
  = (Raise (HTTPException 404 "Calculation not found." []), db).
Proof.
  intros Hp Hall. unfold get_calculation, delete_calculation. rewrite Hp.
  assert (Hf : find (id_and_owner cid u) db = None).
  { destruct (find _ db) as [c|] eqn:Hf; [|reflexivity].
    apply find_some in Hf as [Hin Hc].
    unfold id_and_owner in Hc. apply andb_prop in Hc as [H1 H2].
    apply bool_decide_eq_true_1 in H1, H2.
    destruct (Hall c (proj2 (list_elem_of_In _ _) Hin) H1 H2). }
  by rewrite Hf.
Qed.

(** X16: when [delete_calculation] refuses, the table is left as it is,
    and the refusal is the 400 for an id that does not parse or the 404
    for an id no row of the current user has. *)
Theorem delete_calculation_refused s u db e db' :
  delete_calculation parse_uuid s u db = (Raise e, db') →
  db' = db ∧
  ((parse_uuid s = None ∧
    e = HTTPException 400 "Invalid calculation id format." []) ∨
   (∃ cid, parse_uuid s = Some cid ∧
           e = HTTPException 404 "Calculation not found." [] ∧
           ∀ c, c ∈ db → calc_id c = cid → calc_user_id c ≠ id u)).
Proof.
  unfold delete_calculation.
  destruct (parse_uuid s) as [cid|]; [|intros [= <- <-]; auto].
  destruct (find _ db) as [c|] eqn:Hf; [discriminate|].
  intros [= <- <-]. split; [reflexivity|]. right. exists cid.
  split; [reflexivity|]. split; [reflexivity|].
  intros c Hin Hid Hu.
  apply find_none with (x := c) in Hf; [|by apply list_elem_of_In].
  unfold id_and_owner in Hf.
  by rewrite !bool_decide_eq_true_2 in Hf.
Qed.

(** X17: with ids unique in the table, every calculation
    [list_calculations] shows the user can be fetched by its id, and
    what [get_calculation] returns is among those listed. *)
Theorem listed_calculations_fetchable s u db c :
  NoDup (List.map calc_id db) →
  parse_uuid s = Some (calc_id c) →
  (c ∈ list_calculations u db ↔ get_calculation parse_uuid s u db = Return c).
Proof.
  intros Hnd Hp. unfold list_calculations. split.
  - intros Hin. apply list_elem_of_In, filter_In in Hin as [Hin Hu].
    unfold get_calculation. rewrite Hp.
    destruct (find _ db) as [c'|] eqn:Hf.
    + apply find_some in Hf as [Hin' Hc'].
      unfold id_and_owner in Hc'. apply andb_prop in Hc' as [H1 _].
      apply bool_decide_eq_true_1 in H1.
      f_equal. clear Hu Hp.
      induction db as [|x db IH]; [destruct Hin|].
      cbn in Hnd. apply NoDup_cons in Hnd as [Hx Hnd].
      destruct Hin as [->|Hin], Hin' as [->|Hin']; try reflexivity.
      * destruct Hx. rewrite <-H1. apply list_elem_of_In, in_map.
        exact Hin'.
      * destruct Hx. rewrite H1. apply list_elem_of_In, in_map.
        exact Hin.
      * by apply IH.
    + apply find_none with (x := c) in Hf; [|exact Hin].
      unfold id_and_owner in Hf.
      rewrite bool_decide_eq_true_2 in Hf by reflexivity.
      cbn in Hf. rewrite Hu in Hf. discriminate.
  - intros Hg. apply get_calculation_inv in Hg as (Hin & _ & Hu).
    apply list_elem_of_In, filter_In. split; [by apply list_elem_of_In|].
    by apply bool_decide_eq_true_2.
Qed.

Lemma delete_calculation_inv s u db db' :
  delete_calculation parse_uuid s u db = (Return tt, db') →
  ∃ c l1 l2,
    get_calculation parse_uuid s u db = Return c ∧
    db = (l1 ++ c :: l2)%list ∧ db' = (l1 ++ l2)%list ∧
    ∀ u', id u' ≠ id u → list_calculations u' db' = list_calculations u' db.
Proof.
  unfold delete_calculation, get_calculation.
  destruct (parse_uuid s) as [cid|]; [|discriminate].
  destruct (find _ db) as [c|] eqn:Hf; [|discriminate].
  intros [= <-].
  destruct (delete_first_spec _ _ _ Hf) as (l1 & l2 & -> & Hd & _ & Hc).
  exists c, l1, l2. split; [reflexivity|]. split; [reflexivity|].
  split; [exact Hd|].
  intros u' Hne. unfold list_calculations. rewrite Hd.
  rewrite !List.filter_app. cbn [List.filter].
  unfold id_and_owner in Hc. apply andb_prop in Hc as [_ Hu].
  apply bool_decide_eq_true_1 in Hu.
  rewrite bool_decide_eq_false_2 by congruence. reflexivity.
Qed.

(** X18: a successful [delete_calculation] removes exactly one row, the
    one [get_calculation] returns for the same request, and nothing of
    what other users see listed changes. *)
Theorem delete_calculation_effect s u db db' :
  delete_calculation parse_uuid s u db = (Return tt, db') →
  ∃ c l1 l2,
    get_calculation parse_uuid s u db = Return c ∧
    db = (l1 ++ c :: l2)%list ∧ db' = (l1 ++ l2)%list ∧
    ∀ u', id u' ≠ id u → list_calculations u' db' = list_calculations u' db.
Proof. apply delete_calculation_inv. Qed.

(** X19: with ids unique in the table, a calculation that was deleted is
    not found afterwards. *)
Theorem deleted_calculation_gone s u db db' :
  NoDup (List.map calc_id db) →
  delete_calculation parse_uuid s u db = (Return tt, db') →
  get_calculation parse_uuid s u db'
  = Raise (HTTPException 404 "Calculation not found." []).
Proof.
  intros Hnd Hdel.
  destruct (delete_calculation_inv _ _ _ _ Hdel)
    as (c & l1 & l2 & Hg & -> & -> & _).
  apply get_calculation_inv in Hg as (_ & Hp & _).
  unfold get_calculation. rewrite Hp.
  destruct (find _ (l1 ++ l2)%list) as [c'|] eqn:Hf; [|reflexivity].
  apply find_some in Hf as [Hin Hc'].
  unfold id_and_owner in Hc'. apply andb_prop in Hc' as [H1 _].
  apply bool_decide_eq_true_1 in H1.
  rewrite map_app in Hnd. cbn in Hnd.
  apply NoDup_app in Hnd as (_ & Hdisj & Hnd2).
  apply NoDup_cons in Hnd2 as [Hc2 _].
  apply in_app_or in Hin as [Hin|Hin].
  - destruct (Hdisj (calc_id c)).
    + rewrite <-H1. by apply list_elem_of_In, in_map.
    + left.
  - destruct Hc2. rewrite <-H1. by apply list_elem_of_In, in_map.
Qed.

End CalculationFacts.

(** * The further properties on the concrete instance *)

Lemma decode_token_sound_witness :
  Cases.verified
  = (Return (Sample.payload_of Sample.access_token), Cases.verified.2) ∧
  ∃ sig jti,
    Sample.access_token
    = Compact (ALGORITHM Sample.settings)
              (Sample.payload_of Sample.access_token) sig ∧
    Sample.sign (ALGORITHM Sample.settings)
                (secret_for Sample.settings ACCESS)
                (Sample.payload_of Sample.access_token) = Some sig ∧
    Sample.payload_of Sample.access_token !! "type"
    = Some (JStr (value ACCESS)) ∧
    Sample.payload_of Sample.access_token !! "jti" = Some (JStr jti) ∧
    (jti ∉ blacklist Sample.soon) ∧
    store_lookups Cases.verified.2 = JStr jti :: store_lookups Sample.soon ∧
    (true = true → ∀ v exp,
       Sample.payload_of Sample.access_token !! "exp" = Some v →
       builtin_int Sample.int_of_str v = Return exp →
       timegm (now_of Sample.soon) ≤ exp ∨
       timegm (now_of (tick Sample.soon)) ≤ exp).
Proof.
  assert (H : Cases.verified
              = (Return (Sample.payload_of Sample.access_token),
                 Cases.verified.2))
    by issued.
  split; [exact H|].
  exact (decode_token_sound Sample.sign Sample.int_of_str Sample.settings
           Sample.access_token ACCESS true Sample.soon _ _ H).
Defined.

Lemma decode_token_unsigned_witness :
  signature_valid Sample.sign Cases.forged_token
                  (secret_for Sample.settings ACCESS) = false ∧
  (∀ e, Cases.forged_token ≠ Unloadable e) ∧
  decode_token Sample.sign Sample.int_of_str Sample.settings
               Cases.forged_token ACCESS true Sample.soon
  = (Raise (http_401 "Could not validate credentials"), Sample.soon).
Proof.
  assert (H : signature_valid Sample.sign Cases.forged_token
                (secret_for Sample.settings ACCESS) = false)
    by by_running.
  assert (Hl : ∀ e, Cases.forged_token ≠ Unloadable e) by discriminate.
  split; [exact H|]. split; [exact Hl|].
  exact (decode_token_unsigned Sample.sign Sample.int_of_str Sample.settings
           _ ACCESS true Sample.soon H Hl).
Defined.

(** The string of a request whose header held a lone surrogate goes
    through [decode_token] as the error the loader raised. *)
Example decode_token_unloadable :
  (decode_token Sample.sign Sample.int_of_str Sample.settings
     (Unloadable (UnicodeEncodeError "surrogates not allowed")) ACCESS true
     Sample.soon).1
  = Raise (UnicodeEncodeError "surrogates not allowed").
Proof. by_running. Qed.

(** A token signed under the access secret whose [exp] is a numeric
    string is read like one with the number, and one whose [exp] is
    null makes [int] raise [TypeError], which [decode_token] lets
    through. *)
Example decode_token_string_and_null_exp :
  (decode_token Sample.sign Sample.int_of_str Sample.settings
     (Cases.signed (<["exp" := JStr "1700001800"]> Cases.bare_claims))
     ACCESS true Sample.soon).1
  = Return (<["exp" := JStr "1700001800"]> Cases.bare_claims) ∧
  (decode_token Sample.sign Sample.int_of_str Sample.settings
     (Cases.signed (<["exp" := JStr "1700001800"]> Cases.bare_claims))
     ACCESS true Sample.late).1
  = Raise (http_401 "Token has expired") ∧
  (∃ msg,
     (decode_token Sample.sign Sample.int_of_str Sample.settings
        (Cases.signed (<["exp" := JNull]> Cases.bare_claims))
        ACCESS true Sample.soon).1
     = Raise (TypeError msg)).
Proof.
  split; [by_running|]. split; [by_running|].
  eexists. by_running.
Qed.

Lemma decode_token_ignoring_expiry_witness :
  Sample.access_issue = (Return Sample.access_token, Sample.access_issue.2) ∧
  revoked_in Sample.access_token Sample.late = false ∧
  expired_at Sample.access_token Sample.late = true ∧
  ∃ payload w',
    decode_token Sample.sign Sample.int_of_str Sample.settings Sample.access_token ACCESS false
                 Sample.late = (Return payload, w') ∧
    payload !! "sub" = Some (JStr (user_id_str (inl "alice-id"))) ∧
    clock_reads w' = clock_reads Sample.late.
Proof.
  assert (H : Sample.access_issue
              = (Return Sample.access_token, Sample.access_issue.2))
    by issued.
  assert (Hrev : revoked_in Sample.access_token Sample.late = false)
    by by_running.
  split; [exact H|]. split; [exact Hrev|]. split; [by_running|].
  exact (decode_token_ignoring_expiry Sample.sign Sample.str Sample.int_of_str Sample.settings
           (inl "alice-id") ACCESS None Sample.world _ _ Sample.late H Hrev).
Defined.

Lemma default_lifetime_witness :
  Cases.refresh_issue = (Return Cases.refresh_token, Cases.refresh_issue.2) ∧
  claim_of Cases.refresh_token "exp"
  = Some (JInt (timegm (now_of Sample.world) +
                86400 * REFRESH_TOKEN_EXPIRE_DAYS Sample.settings)).
Proof.
  assert (H : Cases.refresh_issue
              = (Return Cases.refresh_token, Cases.refresh_issue.2))
    by issued.
  split; [exact H|].
  exact (default_lifetime Sample.sign Sample.str Sample.settings
           (inl "alice-id") REFRESH Sample.world _ _ H).
Defined.

Lemma create_token_failures_witness :
  Cases.bad_issue.1
  = Raise (HTTPException HTTP_500_INTERNAL_SERVER_ERROR
             "Could not create token: Algorithm not supported." []) ∧
  ((∃ msg, HTTPException HTTP_500_INTERNAL_SERVER_ERROR
             "Could not create token: Algorithm not supported." []
           = OverflowError msg) ∨
   (∃ cause, HTTPException HTTP_500_INTERNAL_SERVER_ERROR
               "Could not create token: Algorithm not supported." []
             = HTTPException HTTP_500_INTERNAL_SERVER_ERROR
                 ("Could not create token: " +:+ Sample.str cause) [])).
Proof.
  assert (H : Cases.bad_issue.1
              = Raise (HTTPException HTTP_500_INTERNAL_SERVER_ERROR
                         "Could not create token: Algorithm not supported." []))
    by by_running.
  split; [exact H|].
  exact (create_token_failures Sample.sign Sample.str Cases.bad_settings
           (inl "alice-id") ACCESS None Sample.world _ H).
Defined.

Lemma create_token_succeeds_witness :
  ∃ tok,
    create_token Sample.sign Sample.str Sample.settings (inl "alice-id")
                 ACCESS None Sample.world
    = (Return tok, drawn (tick (tick Sample.world))).
Proof.
  apply (create_token_succeeds Sample.sign Sample.str Sample.settings
           (inl "alice-id") ACCESS None Sample.world).
  - apply list_elem_of_In. left. reflexivity.
  - unfold Sample.sign. rewrite bool_decide_eq_true_2 by reflexivity. eauto.
  - vm_compute. split; discriminate.
  - vm_compute. split; discriminate.
Defined.

Lemma verdict_depends_on_own_jti_witness :
  Sample.access_issue = (Return Sample.access_token, Sample.access_issue.2) ∧
  now_of Sample.soon = now_of Cases.soon_other ∧
  revoked_in Sample.access_token Sample.soon
  = revoked_in Sample.access_token Cases.soon_other ∧
  (decode_token Sample.sign Sample.int_of_str Sample.settings Sample.access_token ACCESS true
                Sample.soon).1
  = (decode_token Sample.sign Sample.int_of_str Sample.settings Sample.access_token ACCESS true
                  Cases.soon_other).1.
Proof.
  assert (H : Sample.access_issue
              = (Return Sample.access_token, Sample.access_issue.2))
    by issued.
  assert (Hnow : now_of Sample.soon = now_of Cases.soon_other)
    by reflexivity.
  assert (Hrev : revoked_in Sample.access_token Sample.soon
                 = revoked_in Sample.access_token Cases.soon_other)
    by by_running.
  split; [exact H|]. split; [exact Hnow|]. split; [exact Hrev|].
  exact (verdict_depends_on_own_jti Sample.sign Sample.str Sample.int_of_str Sample.settings
           (inl "alice-id") ACCESS None Sample.world _ _ true _ _ H Hnow Hrev).
Defined.

Lemma cross_type_never_accepted_witness :
  Cases.refresh_issue = (Return Cases.refresh_token, Cases.refresh_issue.2) ∧
  ACCESS ≠ REFRESH ∧
  ∃ detail w',
    decode_token Sample.sign Sample.int_of_str Sample.settings Cases.refresh_token ACCESS true
                 Sample.soon = (Raise (http_401 detail), w').
Proof.
  assert (H : Cases.refresh_issue
              = (Return Cases.refresh_token, Cases.refresh_issue.2))
    by issued.
  assert (Hne : ACCESS ≠ REFRESH) by discriminate.
  split; [exact H|]. split; [exact Hne|].
  exact (cross_type_never_accepted Sample.sign Sample.str Sample.int_of_str Sample.settings
           (inl "alice-id") REFRESH ACCESS None Sample.world _ _ true
           Sample.soon H Hne).
Defined.

Lemma plain_helper_data : plain_claims Cases.helper_data.
Proof.
  repeat split; try by_running.
  - intros v Hv. vm_compute in Hv. injection Hv as <-. eauto.
  - intros v Hv. vm_compute in Hv. discriminate Hv.
Qed.

Lemma helper_round_trip_witness :
  Cases.helper_issue = (Return Cases.helper_token, Cases.helper_issue.2) ∧
  plain_claims Cases.helper_data ∧
  expired_at Cases.helper_token Sample.soon = false ∧
  ∃ payload,
    decode_access_token Sample.sign Sample.str Sample.int_of_str Sample.settings
                        Cases.helper_token Sample.soon
    = (Return payload, tick Sample.soon) ∧
    (∀ k j, k ≠ "exp" → k ≠ "iat" → Cases.helper_data !! k = Some (PJson j) →
       payload !! k = Some j) ∧
    payload !! "exp"
    = Some (JInt (timegm (now_of Sample.world
                          + helper_ttl Sample.settings (Some 60)))) ∧
    payload !! "iat" = Some (JInt (timegm (now_of (tick Sample.world)))).
Proof.
  assert (H : Cases.helper_issue
              = (Return Cases.helper_token, Cases.helper_issue.2))
    by issued.
  assert (Hexp : expired_at Cases.helper_token Sample.soon = false)
    by by_running.
  split; [exact H|]. split; [exact plain_helper_data|]. split; [exact Hexp|].
  exact (helper_round_trip Sample.sign Sample.str Sample.int_of_str Sample.settings
           Cases.helper_data (Some 60) Sample.world _ _ Sample.soon H
           plain_helper_data Hexp).
Defined.

Lemma decode_access_token_sound_witness :
  Cases.helper_decoded
  = (Return (Sample.payload_of Cases.helper_token), Cases.helper_decoded.2) ∧
  ((∃ sig, Cases.helper_token
           = Compact (ALGORITHM Sample.settings)
                     (Sample.payload_of Cases.helper_token) sig ∧
           Sample.sign (ALGORITHM Sample.settings)
                       (SECRET_KEY Sample.settings)
                       (Sample.payload_of Cases.helper_token) = Some sig) ∧
   (∀ v exp, Sample.payload_of Cases.helper_token !! "exp" = Some v →
      builtin_int Sample.int_of_str v = Return exp →
      timegm (now_of Sample.soon) ≤ exp ∨
      timegm (now_of (tick Sample.soon)) ≤ exp) ∧
   blacklist Cases.helper_decoded.2 = blacklist Sample.soon ∧
   store_lookups Cases.helper_decoded.2 = store_lookups Sample.soon).
Proof.
  assert (H : Cases.helper_decoded
              = (Return (Sample.payload_of Cases.helper_token),
                 Cases.helper_decoded.2))
    by issued.
  split; [exact H|].
  exact (decode_access_token_sound Sample.sign Sample.str Sample.int_of_str Sample.settings
           Cases.helper_token Sample.soon _ _ H).
Defined.

Lemma decode_access_token_ignores_revocation_witness :
  Sample.shared_issue = (Return Sample.shared_token, Sample.shared_issue.2) ∧
  SECRET_KEY Sample.shared_settings = secret_for Sample.shared_settings ACCESS ∧
  expired_at Sample.shared_token Cases.shared_revoked = false ∧
  revoked_in Sample.shared_token Cases.shared_revoked = true ∧
  ∃ payload,
    decode_access_token Sample.sign Sample.str Sample.int_of_str Sample.shared_settings
                        Sample.shared_token Cases.shared_revoked
    = (Return payload, tick Cases.shared_revoked) ∧
    payload !! "sub" = Some (JStr (user_id_str (inl "alice-id"))) ∧
    payload !! "type" = Some (JStr (value ACCESS)).
Proof.
  assert (H : Sample.shared_issue
              = (Return Sample.shared_token, Sample.shared_issue.2))
    by issued.
  assert (Hkey : SECRET_KEY Sample.shared_settings
                 = secret_for Sample.shared_settings ACCESS)
    by reflexivity.
  assert (Hexp : expired_at Sample.shared_token Cases.shared_revoked = false)
    by by_running.
  split; [exact H|]. split; [exact Hkey|]. split; [exact Hexp|].
  split; [by_running|].
  exact (decode_access_token_ignores_revocation Sample.sign Sample.str Sample.int_of_str
           Sample.shared_settings (inl "alice-id") ACCESS None Sample.world
           _ _ Cases.shared_revoked H Hkey Hexp).
Defined.

(** The password rules on the example of the schema and on three that
    miss one rule each. *)
Example password_examples :
  validate_password_strength Cases.isupper Cases.islower Cases.isdigit
    (codepoints "SecurePass123!") = Return (codepoints "SecurePass123!") ∧
  validate_password_strength Cases.isupper Cases.islower Cases.isdigit
    (codepoints "Ab1")
  = Raise (ValueError "Password must be at least 8 characters long") ∧
  validate_password_strength Cases.isupper Cases.islower Cases.isdigit
    (codepoints "securepass123")
  = Raise (ValueError "Password must contain at least one uppercase letter") ∧
  validate_password_strength Cases.isupper Cases.islower Cases.isdigit
    (codepoints "SecurePassword")
  = Raise (ValueError "Password must contain at least one digit").
Proof. repeat split; by_running. Qed.

Lemma table_ids_unique : NoDup (List.map calc_id Cases.table).
Proof.
  cbn. repeat (apply NoDup_cons; split; [|]); try apply NoDup_nil.
  all: rewrite ?list_elem_of_In; cbn; intuition discriminate.
Qed.

Lemma get_calculation_owned_witness :
  get_calculation Cases.parse_uuid Cases.id1 Sample.alice Cases.table
  = Return (Cases.calc 1 "alice-id" "2 + 3") ∧
  (Cases.calc 1 "alice-id" "2 + 3" ∈ Cases.table ∧
   Cases.parse_uuid Cases.id1
   = Some (calc_id (Cases.calc 1 "alice-id" "2 + 3")) ∧
   calc_user_id (Cases.calc 1 "alice-id" "2 + 3") = id Sample.alice).
Proof.
  assert (H : get_calculation Cases.parse_uuid Cases.id1 Sample.alice
                Cases.table = Return (Cases.calc 1 "alice-id" "2 + 3"))
    by by_running.
  split; [exact H|].
  exact (get_calculation_owned string Cases.parse_uuid _ _ _ _ H).
Defined.

Lemma foreign_calculation_not_found_witness :
  Cases.parse_uuid Cases.id2 = Some (mkUUID 2) ∧
  get_calculation Cases.parse_uuid Cases.id2 Sample.alice Cases.table
  = Raise (HTTPException 404 "Calculation not found." []) ∧
  delete_calculation Cases.parse_uuid Cases.id2 Sample.alice Cases.table
  = (Raise (HTTPException 404 "Calculation not found." []), Cases.table).
Proof.
  assert (H : Cases.parse_uuid Cases.id2 = Some (mkUUID 2)) by by_running.
  split; [exact H|].
  apply (foreign_calculation_not_found string Cases.parse_uuid Cases.id2
           Sample.alice Cases.table (mkUUID 2) H).
  intros c Hin Hid. unfold Cases.table in Hin.
  rewrite !elem_of_cons, elem_of_nil in Hin.
  destruct Hin as [->|[->|[->|[]]]]; cbn in Hid |- *; discriminate.
Defined.

Lemma delete_calculation_refused_witness :
  delete_calculation Cases.parse_uuid "not-a-uuid" Sample.alice Cases.table
  = (Raise (HTTPException 400 "Invalid calculation id format." []),
     Cases.table) ∧
  (Cases.table = Cases.table ∧
   ((Cases.parse_uuid "not-a-uuid" = None ∧
     HTTPException 400 "Invalid calculation id format." []
     = HTTPException 400 "Invalid calculation id format." []) ∨
    (∃ cid, Cases.parse_uuid "not-a-uuid" = Some cid ∧
            HTTPException 400 "Invalid calculation id format." []
            = HTTPException 404 "Calculation not found." [] ∧
            ∀ c, c ∈ Cases.table → calc_id c = cid →
                 calc_user_id c ≠ id Sample.alice))).
Proof.
  assert (H : delete_calculation Cases.parse_uuid "not-a-uuid" Sample.alice
                Cases.table
              = (Raise (HTTPException 400 "Invalid calculation id format." []),
                 Cases.table))
    by by_running.
  split; [exact H|].
  exact (delete_calculation_refused string Cases.parse_uuid _ _ _ _ _ H).
Defined.

Lemma listed_calculations_fetchable_witness :
  NoDup (List.map calc_id Cases.table) ∧
  Cases.parse_uuid Cases.id1
  = Some (calc_id (Cases.calc 1 "alice-id" "2 + 3")) ∧
  (Cases.calc 1 "alice-id" "2 + 3" ∈ list_calculations Sample.alice Cases.table
   ↔ get_calculation Cases.parse_uuid Cases.id1 Sample.alice Cases.table
     = Return (Cases.calc 1 "alice-id" "2 + 3")).
Proof.
  assert (H : Cases.parse_uuid Cases.id1
              = Some (calc_id (Cases.calc 1 "alice-id" "2 + 3")))
    by by_running.
  split; [exact table_ids_unique|]. split; [exact H|].
  exact (listed_calculations_fetchable string Cases.parse_uuid Cases.id1
           Sample.alice Cases.table _ table_ids_unique H).
Defined.

Lemma delete_calculation_effect_witness :
  delete_calculation Cases.parse_uuid Cases.id1 Sample.alice Cases.table
  = (Return tt, [Cases.calc 2 "bob-id" "7 * 6"; Cases.calc 3 "alice-id" "9 / 3"]) ∧
  ∃ c l1 l2,
    get_calculation Cases.parse_uuid Cases.id1 Sample.alice Cases.table
    = Return c ∧
    Cases.table = (l1 ++ c :: l2)%list ∧
    [Cases.calc 2 "bob-id" "7 * 6"; Cases.calc 3 "alice-id" "9 / 3"]
    = (l1 ++ l2)%list ∧
    ∀ u', id u' ≠ id Sample.alice →
      list_calculations u'
        [Cases.calc 2 "bob-id" "7 * 6"; Cases.calc 3 "alice-id" "9 / 3"]
      = list_calculations u' Cases.table.
Proof.
  assert (H : delete_calculation Cases.parse_uuid Cases.id1 Sample.alice
                Cases.table
              = (Return tt, [Cases.calc 2 "bob-id" "7 * 6";
                             Cases.calc 3 "alice-id" "9 / 3"]))
    by by_running.
  split; [exact H|].
  exact (delete_calculation_effect string Cases.parse_uuid _ _ _ _ H).
Defined.

Lemma deleted_calculation_gone_witness :
  NoDup (List.map calc_id Cases.table) ∧
  delete_calculation Cases.parse_uuid Cases.id1 Sample.alice Cases.table
  = (Return tt, [Cases.calc 2 "bob-id" "7 * 6"; Cases.calc 3 "alice-id" "9 / 3"]) ∧
  get_calculation Cases.parse_uuid Cases.id1 Sample.alice
    [Cases.calc 2 "bob-id" "7 * 6"; Cases.calc 3 "alice-id" "9 / 3"]
  = Raise (HTTPException 404 "Calculation not found." []).
Proof.
  assert (H : delete_calculation Cases.parse_uuid Cases.id1 Sample.alice
                Cases.table
              = (Return tt, [Cases.calc 2 "bob-id" "7 * 6";
                             Cases.calc 3 "alice-id" "9 / 3"]))
    by by_running.
  split; [exact table_ids_unique|]. split; [exact H|].
  exact (deleted_calculation_gone string Cases.parse_uuid _ _ _ _
           table_ids_unique H).
Defined.
